(** * download.py: 1-minute bar downloader, shallow embedding

    The script has three functions.  [daterange] walks the business days
    between two calendar bounds, [fetch_day] turns one provider response
    into a data frame, and [main] drives both behind a fixed-window
    request counter, writing one CSV per day.

    The embedding keeps the shape of the script: one module per function,
    the same local names, explicit state for the counter, the clock, the
    output directory and the console. *)

From Stdlib Require Import ZArith QArith Lqa List String Ascii Sorted.
From stdpp Require Import base gmap strings list.
From Equations Require Import Equations.
Import ListNotations.

Local Open Scope Z_scope.

(** ** Calendar days *)

Module Calendar.

(** A [pd.Timestamp] at midnight is a calendar day; it is kept as the
    number of days since 1970-01-01 (a Thursday). *)
Abbreviation Timestamp := Z (only parsing).

(** [Timestamp.weekday()]: Monday is 0, Sunday is 6. *)
Definition weekday (cur : Timestamp) : Z := (cur + 3) mod 7.

(** [cur + BDay()], pandas' [BusinessDay(n=1)] offset: one day forward
    inside the week, Friday to Monday, and a weekend day to the Monday
    after it.  The value is the number of days added. *)
Definition BDay (cur : Timestamp) : Z :=
  let wday := weekday cur in
  if 4 <? wday then 7 - wday          (* Saturday +2, Sunday +1 *)
  else if wday + 1 <=? 4 then 1       (* stays in the week *)
  else 3.                             (* Friday: over the weekend *)

(** The civil date of a day number (proleptic Gregorian calendar), as
    (year, month, day). *)
Definition civil (cur : Timestamp) : Z * Z * Z :=
  let z := cur + 719468 in
  let era := z / 146097 in
  let doe := z - era * 146097 in
  let yoe := (doe - doe / 1460 + doe / 36524 - doe / 146096) / 365 in
  let doy := doe - (365 * yoe + yoe / 4 - yoe / 100) in
  let mp := (5 * doy + 2) / 153 in
  let d := doy - (153 * mp + 2) / 5 + 1 in
  let m := if mp <? 10 then mp + 3 else mp - 9 in
  let y := yoe + era * 400 + (if m <=? 2 then 1 else 0) in
  (y, m, d).

Definition digit (n : Z) : ascii :=
  ascii_of_nat (48 + Z.to_nat (n mod 10)).

Definition two_digits (n : Z) : string :=
  String (digit (n / 10)) (String (digit n) EmptyString).

Definition four_digits (n : Z) : string :=
  (two_digits (n / 100) ++ two_digits n)%string.

(** [cur.strftime("%Y-%m-%d")]. *)
Definition strftime (cur : Timestamp) : string :=
  let '(y, m, d) := civil cur in
  (four_digits y ++ "-" ++ two_digits m ++ "-" ++ two_digits d)%string.

End Calendar.

(** ** The trading-day sequencer *)

Module Sequencer.
Import Calendar.

(** [daterange]: the bounds are the two timestamps that
    [pd.to_datetime] returns for [start] and [end]; the list holds the
    strings the generator yields, in order. *)
Equations? daterange (cur end_ : Timestamp) : list string
  by wf (Z.to_nat (end_ - cur + 1)) lt :=
  daterange cur end_ with Z_le_dec cur end_ := {
    | left _ =>
        (if weekday cur <? 5 then [strftime cur] else [])
          ++ daterange (cur + BDay cur) end_;
    | right _ => [] }.
Proof.
  unfold BDay, weekday.
  pose proof (Z.mod_pos_bound (cur + 3) 7 ltac:(lia)).
  repeat case_match; lia.
Qed.

(** The timestamps behind the yielded strings: the values of [cur] at
    which the loop body reaches its [yield]. *)
Equations? yielded (cur end_ : Timestamp) : list Timestamp
  by wf (Z.to_nat (end_ - cur + 1)) lt :=
  yielded cur end_ with Z_le_dec cur end_ := {
    | left _ =>
        (if weekday cur <? 5 then [cur] else [])
          ++ yielded (cur + BDay cur) end_;
    | right _ => [] }.
Proof.
  unfold BDay, weekday.
  pose proof (Z.mod_pos_bound (cur + 3) 7 ltac:(lia)).
  repeat case_match; lia.
Qed.

End Sequencer.

(** ** The day fetcher *)

Module Fetcher.

(** *** What the provider sends *)

(** JSON numbers are kept as rationals; the rounding of Python floats
    plays no part, the script only carries the numbers through. *)
Inductive JValue :=
| JNull
| JBool (b : bool)
| JNumber (q : Q)
| JString (s : string).

(** One aggregate of the provider's [results] list, with the six keys
    the script reads: five numbers and [t], an integer count of
    milliseconds since the epoch.  The value of a number is kept as it
    stands in the response; pandas stores a column that mixes integers
    with floats as floats, which rounds integers beyond 2^53, and no
    statement below speaks of the value of a cell of those columns. *)
Record Agg := {
  agg_v : Q; agg_o : Q; agg_c : Q; agg_h : Q; agg_l : Q;
  agg_t : Z      (* millisecond epoch *)
}.

(** The decoded JSON object [js]: each key may be absent. *)
Record Body := {
  resultsCount : option JValue;
  results : option (list Agg)
}.

Record Request := {
  url : string;
  params : list (string * string);
  timeout : Z
}.

(** What [requests.get] does: it raises, or it returns a response [r]
    with a status code; [json] is [None] when [r.json()] does not
    yield an object. *)
Inductive Reply :=
| ConnectionFailed (detail : string)
| Response (status_code : Z) (json : option Body).

(** [Unmodelled] marks a library path the embedding does not follow;
    [fetch_day] never takes one. *)
Inductive Exception :=
| RequestException (detail : string)
| HTTPError (status_code : Z)
| JSONDecodeError
| KeyError (key : string)
| OutOfBoundsDatetime
| AttributeError (detail : string)
| Unmodelled (what : string).

(** *** Data frames *)

Inductive TZ := UTC | America_New_York.

(** A time-zone aware timestamp: the instant, in milliseconds since the
    epoch, and the zone it is shown in.  [tz_convert] changes the zone
    and keeps the instant. *)
Record Datetime := { epoch_ms : Z; tz : TZ }.

(** A cell of an integer column, of a float column, of a datetime
    column. *)
Inductive Cell :=
| Integer (z : Z)
| Number (q : Q)
| Instant (d : Datetime).

Record DataFrame := {
  index_name : option string;
  index : list Cell;
  columns : list (string * list Cell)
}.

(** [pd.DataFrame()] *)
Definition DataFrame_empty : DataFrame :=
  {| index_name := None; index := []; columns := [] |}.

Definition RangeIndex (n : nat) : list Cell :=
  map (fun i => Integer (Z.of_nat i)) (seq 0 n).

Definition column (f : Agg -> Q) (rs : list Agg) : list Cell :=
  map (fun r => Number (f r)) rs.

Definition integer_column (f : Agg -> Z) (rs : list Agg) : list Cell :=
  map (fun r => Integer (f r)) rs.

(** [pd.DataFrame(records)]: one column per key, one row per record;
    an empty list gives a frame without columns. *)
Definition DataFrame_of_records (rs : list Agg) : DataFrame :=
  {| index_name := None;
     index := RangeIndex (length rs);
     columns :=
       match rs with
       | [] => []
       | _ => [("v", column agg_v rs); ("o", column agg_o rs);
               ("c", column agg_c rs); ("h", column agg_h rs);
               ("l", column agg_l rs); ("t", integer_column agg_t rs)]%string
       end |}.

Fixpoint assoc {A} (key : string) (kvs : list (string * A)) : option A :=
  match kvs with
  | [] => None
  | (k, x) :: rest => if String.eqb k key then Some x else assoc key rest
  end.

(** A small error monad for the steps that can raise. *)
Definition Result (A : Type) : Type := Exception + A.
Definition Return {A} (x : A) : Result A := inr x.
Definition Raise {A} (e : Exception) : Result A := inl e.
Definition bind {A B} (m : Result A) (k : A -> Result B) : Result B :=
  match m with
  | inl e => inl e
  | inr x => k x
  end.

Notation "x <- m ;; k" := (bind m (fun x => k))
  (at level 90, m at next level, right associativity).

(** [df[key]] *)
Definition getitem (df : DataFrame) (key : string) : Result (list Cell) :=
  match assoc key (columns df) with
  | Some col => Return col
  | None => Raise (KeyError key)
  end.

Fixpoint replace_column (key : string) (col : list Cell)
    (cols : list (string * list Cell)) : list (string * list Cell) :=
  match cols with
  | [] => [(key, col)]
  | (k, x) :: rest =>
      if String.eqb k key then (k, col) :: rest
      else (k, x) :: replace_column key col rest
  end.

(** [df[key] = col] *)
Definition setitem (df : DataFrame) (key : string) (col : list Cell)
    : DataFrame :=
  {| index_name := index_name df;
     index := index df;
     columns := replace_column key col (columns df) |}.

Fixpoint pick (df : DataFrame) (keys : list string)
    : Result (list (string * list Cell)) :=
  match keys with
  | [] => Return []
  | k :: rest =>
      col <- getitem df k ;;
      cols <- pick df rest ;;
      Return ((k, col) :: cols)
  end.

(** [df[[k1, k2, ...]]] *)
Definition getitems (df : DataFrame) (keys : list string)
    : Result DataFrame :=
  cols <- pick df keys ;;
  Return {| index_name := index_name df;
            index := index df;
            columns := cols |}.

(** [df.rename(columns=mapping)] *)
Definition rename (df : DataFrame) (mapping : list (string * string))
    : DataFrame :=
  {| index_name := index_name df;
     index := index df;
     columns :=
       map (fun kc => (default (fst kc) (assoc (fst kc) mapping), snd kc))
           (columns df) |}.

Fixpoint drop_column (key : string) (cols : list (string * list Cell))
    : list (string * list Cell) :=
  match cols with
  | [] => []
  | (k, x) :: rest =>
      if String.eqb k key then rest else (k, x) :: drop_column key rest
  end.

(** [df.set_index(key)] *)
Definition set_index (df : DataFrame) (key : string) : Result DataFrame :=
  col <- getitem df key ;;
  Return {| index_name := Some key;
            index := col;
            columns := drop_column key (columns df) |}.

(** [len(df)] and [df.empty] *)
Definition len (df : DataFrame) : nat := length (index df).

Definition empty (df : DataFrame) : bool :=
  (len df =? 0)%nat || (length (columns df) =? 0)%nat.

(** A step applied to every cell of a column; the first cell that
    raises ends it. *)
Fixpoint each {A B} (f : A -> Result B) (col : list A) : Result (list B) :=
  match col with
  | [] => Return []
  | x :: rest =>
      y <- f x ;;
      ys <- each f rest ;;
      Return (y :: ys)
  end.

(** pandas keeps a timestamp as a 64-bit count of nanoseconds, the
    least value standing for [NaT]: a millisecond count is in bounds
    when its nanosecond count fits. *)
Definition int64_max : Z := 9223372036854775807.

Definition in_bounds (ms : Z) : bool :=
  (- int64_max <=? ms * 1000000) && (ms * 1000000 <=? int64_max).

(** [pd.to_datetime(col, unit="ms", utc=True)], for a column of
    integers or of timestamps; the rounding pandas applies to a column
    of floats is not followed. *)
Definition to_datetime_ms_utc (col : list Cell) : Result (list Cell) :=
  each (fun x =>
          match x with
          | Integer ms =>
              if in_bounds ms
              then Return (Instant {| epoch_ms := ms; tz := UTC |})
              else Raise OutOfBoundsDatetime
          | Instant d => Return (Instant {| epoch_ms := epoch_ms d; tz := UTC |})
          | Number _ => Raise (Unmodelled "to_datetime of floats")
          end) col.

(** [col.dt.tz_convert(zone)]; the [dt] accessor is there for a
    datetime column only. *)
Definition tz_convert (zone : TZ) (col : list Cell) : Result (list Cell) :=
  each (fun x =>
          match x with
          | Instant d => Return (Instant {| epoch_ms := epoch_ms d; tz := zone |})
          | Integer _ | Number _ =>
              Raise (AttributeError "Can only use .dt accessor with datetimelike values")
          end) col.

(** *** fetch_day *)

(** [x == 0] in Python, for a decoded JSON scalar. *)
Definition eq_zero (x : JValue) : bool :=
  match x with
  | JNumber q => Qeq_bool q 0
  | JBool b => negb b
  | JNull | JString _ => false
  end.

(** [ROOT_URL.format(ticker=ticker, day=day)] *)
Definition ROOT_URL (ticker day : string) : string :=
  ("https://api.polygon.io/v2/aggs/ticker/" ++ ticker
     ++ "/range/1/minute/" ++ day ++ "/" ++ day)%string.

(** [r.raise_for_status()] *)
Definition raise_for_status (status_code : Z) : Result unit :=
  if (400 <=? status_code) && (status_code <? 600)
  then Raise (HTTPError status_code)
  else Return tt.

Definition request_for (API_KEY ticker day : string) : Request :=
  {| url := ROOT_URL ticker day;
     params := [("adjusted", "true"); ("sort", "asc");
                ("limit", "50000"); ("apiKey", API_KEY)]%string;
     timeout := 30 |}.

Section WithNetwork.
(** The network, as seen from one call, and the key read at start. *)
Variable get : Request -> Reply.
Variable API_KEY : string.

Definition fetch_day (ticker day : string) : Result DataFrame :=
  match get (request_for API_KEY ticker day) with
  | ConnectionFailed detail => Raise (RequestException detail)
  | Response status_code json =>
      _ <- raise_for_status status_code ;;
      match json with
      | None => Raise JSONDecodeError
      | Some js =>
          if eq_zero (default (JNumber 0) (resultsCount js))
          then Return DataFrame_empty
          else
            match results js with
            | None => Raise (KeyError "results")
            | Some rs =>
                let df := DataFrame_of_records rs in
                t <- getitem df "t" ;;
                utc <- to_datetime_ms_utc t ;;
                local <- tz_convert America_New_York utc ;;
                let df := setitem df "datetime" local in
                df <- getitems df ["datetime"; "o"; "h"; "l"; "c"; "v"]%string ;;
                set_index
                  (rename df [("o", "open"); ("h", "high"); ("l", "low");
                              ("c", "close"); ("v", "volume")]%string)
                  "datetime"
            end
      end
  end.
End WithNetwork.

(** *** Vocabulary for the properties of [fetch_day] *)


(** Every aggregate's [t] is in bounds. *)
Definition timestamps_in_bounds (rs : list Agg) : bool :=
  forallb (fun r => in_bounds (agg_t r)) rs.


(** Each aggregate's [t], read as UTC milliseconds and shown in
    America/New_York. *)
Definition new_york (rs : list Agg) : list Cell :=
  map (fun r => Instant {| epoch_ms := agg_t r; tz := America_New_York |}) rs.

(** The frame with [datetime] as index and the five renamed columns,
    one row per aggregate, in the order of [rs]. *)
Definition bars (rs : list Agg) : DataFrame :=
  {| index_name := Some "datetime"%string;
     index := new_york rs;
     columns := [("open", column agg_o rs); ("high", column agg_h rs);
                 ("low", column agg_l rs); ("close", column agg_c rs);
                 ("volume", column agg_v rs)]%string |}.

(** A reply is a success when [raise_for_status] lets it through. *)
Definition successful (status_code : Z) : Prop :=
  raise_for_status status_code = Return tt.

(** Sample aggregates and bodies. *)
Definition agg_at (t : Z) : Agg :=
  {| agg_v := 100; agg_o := 10; agg_c := 11; agg_h := 12; agg_l := 9;
     agg_t := t |}.


(** A record, but no [resultsCount] key. *)
Definition body_uncounted : Body :=
  {| resultsCount := None;
     results := Some [agg_at 1748871000000] |}.

(** Two records in ascending order. *)
Definition body_ascending : Body :=
  {| resultsCount := Some (JNumber 2);
     results := Some [agg_at 1748871000000; agg_at 1748871060000] |}.

Definition always (reply : Reply) : Request -> Reply := fun _ => reply.


End Fetcher.

(** ** The orchestrator *)

Module Orchestrator.
Import Calendar Sequencer Fetcher.

(** The parsed command line; [start] and [end_] are the timestamps
    that [daterange] gets from [pd.to_datetime]. *)
Record Args := {
  ticker : string;
  start : Timestamp;
  end_ : Timestamp;
  out : string
}.

(** The console lines. *)
Inductive Line :=
| skip (csv_path : string)               (* [skip] ... already exists *)
| warn (day : string) (e : Exception)    (* [warn] day: e *)
| info (day : string)                    (* [info] day: no data returned *)
| ok (csv_path : string) (bars : nat).   (* [ok] csv_path (n bars) *)

(** What the run does to the outside, newest first in [trace]. *)
Inductive Event :=
| Print (line : Line)
| Sleep (secs : Q)                            (* time.sleep(secs) *)
| Fetch (at_ : Q) (ticker day : string)       (* fetch_day called: one GET *)
| ToCsv (csv_path : string) (df : DataFrame). (* df.to_csv(csv_path) *)

(** The locals of [main] that outlive one iteration, with the files
    below [outdir], the clock read by [time.time()], and the trace. *)
Record State := {
  files : gmap string DataFrame;
  reqs_in_window : Z;
  window_start : Q;
  clock : Q;
  trace : list Event
}.

(** The provider and the wire: the reply to a GET sent at a given time
    and the seconds the call takes.  The clock moves in two places only,
    during a GET and during [time.sleep]; every other statement is
    taken to be instantaneous, and [time.sleep] to last exactly as long
    as asked. *)
Record World := {
  network : Q -> Request -> Reply;
  latency : Q -> Request -> Q
}.

Definition print (line : Line) (st : State) : State :=
  {| files := files st;
     reqs_in_window := reqs_in_window st;
     window_start := window_start st;
     clock := clock st;
     trace := Print line :: trace st |}.

(** [time.sleep(secs)] *)
Definition sleep (secs : Q) (st : State) : State :=
  {| files := files st;
     reqs_in_window := reqs_in_window st;
     window_start := window_start st;
     clock := (clock st + secs)%Q;
     trace := Sleep secs :: trace st |}.

(** [window_start = time.time(); reqs_in_window = 0] *)
Definition new_window (st : State) : State :=
  {| files := files st;
     reqs_in_window := 0;
     window_start := clock st;
     clock := clock st;
     trace := trace st |}.

(** [reqs_in_window += 1] *)
Definition count_request (st : State) : State :=
  {| files := files st;
     reqs_in_window := reqs_in_window st + 1;
     window_start := window_start st;
     clock := clock st;
     trace := trace st |}.

(** [df.to_csv(csv_path)], for a write that succeeds.  The call sits
    after the [try] block: a write the file system refuses raises out
    of [main] and ends the run there, so that what the run really did
    is the trace up to and including that [ToCsv].  The properties
    stated of whole runs are of the kind that hold of such a cut
    trace as well. *)
Definition to_csv(csv_path : string) (df : DataFrame) (st : State) : State :=
  {| files := <[csv_path := df]> (files st);
     reqs_in_window := reqs_in_window st;
     window_start := window_start st;
     clock := clock st;
     trace := ToCsv csv_path df :: trace st |}.

(** [s.replace(':', '_')] *)
Fixpoint replace_colon (s : string) : string :=
  match s with
  | EmptyString => EmptyString
  | String ch rest =>
      String (if Ascii.eqb ch ":" then "_"%char else ch) (replace_colon rest)
  end.

(** [outdir / f"{ticker.replace(':','_')}_{day}.csv"]; the join is
    kept lexical.  [pathlib] goes on to drop empty and [.] components
    and lets an absolute right-hand side replace [outdir], so two
    strings that differ here may name one path there: nothing below
    relies on different strings being different files. *)
Definition csv_path_of (outdir ticker day : string) : string :=
  (outdir ++ "/" ++ replace_colon ticker ++ "_" ++ day ++ ".csv")%string.

Section Run.
Variable W : World.
Variable API_KEY : string.
Variable args : Args.

(** The call [fetch_day(args.ticker, day)] from [main]: the GET goes
    out at the current time and the clock moves by its latency. *)
Definition call_fetch_day (day : string) (st : State)
    : Result DataFrame * State :=
  let now := clock st in
  (fetch_day (network W now) API_KEY (ticker args) day,
   {| files := files st;
      reqs_in_window := reqs_in_window st;
      window_start := window_start st;
      clock := (now + latency W now (request_for API_KEY (ticker args) day))%Q;
      trace := Fetch now (ticker args) day :: trace st |}).

(** The rate-limit block. *)
Definition rate_limit (st : State) : State :=
  if reqs_in_window st =? 5 then
    let delta := (60 - (clock st - window_start st))%Q in
    let st := if Qlt_le_dec 0 delta then sleep (delta + 0.1)%Q st else st in
    new_window st
  else st.

(** One iteration of the [for day in daterange(...)] loop. *)
Definition body (st : State) (day : string) : State :=
  let csv_path := csv_path_of (out args) (ticker args) day in
  match files st !! csv_path with
  | Some _ => print (skip csv_path) st            (* continue *)
  | None =>
      let st := rate_limit st in
      match call_fetch_day day st with
      | (inl e, st) => print (warn day e) st      (* continue *)
      | (inr df, st) =>
          let st :=
            if empty df then print (info day) st
            else print (ok csv_path (len df)) (to_csv csv_path df st) in
          count_request st
      end
  end.

(** The state on entry to the loop, after [outdir.mkdir]: [fs] holds
    the files below [outdir], [now] is the first [time.time()]. *)
Definition init (fs : gmap string DataFrame) (now : Q) : State :=
  {| files := fs;
     reqs_in_window := 0;
     window_start := now;
     clock := now;
     trace := [] |}.

Definition loop (days : list string) (st : State) : State :=
  fold_left body days st.

Definition main (fs : gmap string DataFrame) (now : Q) : State :=
  loop (daterange (start args) (end_ args)) (init fs now).
End Run.

(** *** Vocabulary for the properties of [main] *)

Definition is_fetch_at (from until : Q) (e : Event) : bool :=
  match e with
  | Fetch at_ _ _ => Qle_bool from at_ && negb (Qle_bool until at_)
  | _ => false
  end.

(** The calls of [fetch_day] sent at a time in [from, until). *)
Definition dispatched_between (from until : Q) (tr : list Event) : nat :=
  length (List.filter (is_fetch_at from until) tr).

Definition is_sleep (e : Event) : bool :=
  match e with
  | Sleep _ => true
  | _ => false
  end.

(** Every file the trace says was written is among the files. *)
Definition written (st : State) : Prop :=
  forall p df, In (ToCsv p df) (trace st) -> is_Some (files st !! p).

Definition is_fetch_since (from : Q) (e : Event) : bool :=
  match e with
  | Fetch at_ _ _ => Qle_bool from at_
  | _ => false
  end.

(** The calls of [fetch_day] sent since the current window started. *)
Definition calls_in_window (st : State) : Z :=
  Z.of_nat (length (List.filter (is_fetch_since (window_start st)) (trace st))).

(** Every call in the trace went out before time [t]. *)
Definition fetched_before (t : Q) (tr : list Event) : Prop :=
  forall at_ tk d, In (Fetch at_ tk d) tr -> (at_ < t)%Q.

(** The counter tells the truth: it equals the number of calls sent in
    the current window and is at most five. *)
Record window_ok (st : State) : Prop := {
  count_range : 0 <= reqs_in_window st <= 5;
  count_exact : calls_in_window st = reqs_in_window st;
  start_past : (window_start st <= clock st)%Q;
  calls_past : fetched_before (clock st) (trace st)
}.

(** A world in which [fetch_day] never raises for the run's ticker and
    every call takes some time. *)
Definition always_returns (W : World) (API_KEY : string) (args : Args) : Prop :=
  (forall now day e,
      fetch_day (network W now) API_KEY (ticker args) day <> Raise e) /\
  (forall now req, (0 < latency W now req)%Q).

(** Sample worlds and command lines. *)

(** Every call is refused with 429 after one second. *)
Definition refusing : World :=
  {| network := fun _ _ => Response 429 None;
     latency := fun _ _ => 1%Q |}.

(** Every call is answered after one second with two bars. *)
Definition serving : World :=
  {| network := fun _ _ => Response 200 (Some body_ascending);
     latency := fun _ _ => 1%Q |}.

(** [--ticker SPY --start 2025-06-02 --end 2025-06-09 --out data]:
    six trading days. *)
Definition six_days : Args :=
  {| ticker := "SPY"; start := 20241; end_ := 20248; out := "data" |}.

(** [--ticker I:SPX --start 2025-06-02 --end 2025-06-02 --out data] *)
Definition spx_colon : Args :=
  {| ticker := "I:SPX"; start := 20241; end_ := 20241; out := "data" |}.

(** The same with [--ticker I_SPX]. *)
Definition spx_underscore : Args :=
  {| ticker := "I_SPX"; start := 20241; end_ := 20241; out := "data" |}.

End Orchestrator.

(** ** The credential loader *)

Module Credentials.

Definition API_KEY_PATH : string := "api_key.txt".

(** [ch.isspace()] for a character below 256: tab to carriage return,
    the four separators 28 to 31, space, next line and no-break space. *)
Definition isspace (ch : ascii) : bool :=
  let n := nat_of_ascii ch in
  ((9 <=? n) && (n <=? 13) || (28 <=? n) && (n <=? 32)
   || (n =? 133) || (n =? 160))%nat.

(** [s.lstrip()] *)
Fixpoint lstrip (s : string) : string :=
  match s with
  | EmptyString => EmptyString
  | String ch rest => if isspace ch then lstrip rest else s
  end.

(** [s.rstrip()] *)
Fixpoint rstrip (s : string) : string :=
  match s with
  | EmptyString => EmptyString
  | String ch rest =>
      match rstrip rest with
      | EmptyString => if isspace ch then EmptyString else String ch EmptyString
      | kept => String ch kept
      end
  end.

(** [s.strip()] *)
Definition strip (s : string) : string := rstrip (lstrip s).

(** [with open(API_KEY_PATH) as f: API_KEY = f.read().strip()]; [open_]
    gives the text of a file, or [None] where [open] or [read] raises. *)
Definition load_API_KEY (open_ : string -> option string) : option string :=
  match open_ API_KEY_PATH with
  | Some text => Some (strip text)
  | None => None
  end.

(** A string of whitespace only, and one without any. *)
Fixpoint blank (s : string) : bool :=
  match s with
  | EmptyString => true
  | String ch rest => isspace ch && blank rest
  end.

Fixpoint spaceless (s : string) : bool :=
  match s with
  | EmptyString => true
  | String ch rest => negb (isspace ch) && spaceless rest
  end.

(** The first and the last character of a string. *)
Definition first_char (s : string) : option ascii :=
  match s with
  | EmptyString => None
  | String ch _ => Some ch
  end.

Fixpoint last_char (s : string) : option ascii :=
  match s with
  | EmptyString => None
  | String ch EmptyString => Some ch
  | String _ rest => last_char rest
  end.

End Credentials.

(** ** Counting what a run did *)

Module Accounting.
Import Fetcher Orchestrator.






(** The number of events of one kind in a trace. *)
Definition count (kind : Event -> bool) (tr : list Event) : nat :=
  length (List.filter kind tr).

(** The characters of a path. *)
Fixpoint chars (s : string) : list ascii :=
  match s with
  | EmptyString => []
  | String ch rest => ch :: chars rest
  end.

(** More sample worlds and states. *)

(** A market holiday: every call is answered after one second with a
    count of 0 and no bars. *)
Definition closed : World :=
  {| network := fun _ _ =>
       Response 200 (Some {| resultsCount := Some (JNumber 0);
                             results := Some [] |});
     latency := fun _ _ => 1%Q |}.

(** Five calls counted, five seconds into the window. *)
Definition five_counted : State :=
  {| files := ∅;
     reqs_in_window := 5;
     window_start := 0;
     clock := 5;
     trace := [] |}.

(** The output directory after [2025-06-02] was downloaded for SPY. *)
Definition one_file : gmap string DataFrame :=
  {[ "data/SPY_2025-06-02.csv"%string :=
       bars [agg_at 1748871000000; agg_at 1748871060000] ]}.

End Accounting.

(** * Properties *)

(** ** The sequencer *)

Module SequencerFacts.
Import Calendar Sequencer.

Lemma weekday_range cur : 0 <= weekday cur < 7.
Proof. unfold weekday. apply Z.mod_pos_bound. lia. Qed.

Lemma BDay_forward cur : 1 <= BDay cur <= 3.
Proof.
  unfold BDay. pose proof (weekday_range cur).
  repeat case_match; lia.
Qed.

(** Whatever day [cur] is, [cur + BDay()] is a Monday to Friday. *)
Lemma BDay_weekday cur : weekday (cur + BDay cur) < 5.
Proof.
  unfold BDay, weekday.
  repeat case_match; Z.div_mod_to_equations; lia.
Qed.

(** The generator's strings are the renderings of [yielded]. *)
Lemma daterange_yielded cur end_ :
  daterange cur end_ = map strftime (yielded cur end_).
Proof.
  funelim (daterange cur end_); simp yielded; rewrite ?Heq; simpl; auto.
  rewrite map_app. f_equal; [ case_match; reflexivity | assumption ].
Qed.

Lemma yielded_bounds cur end_ :
  Forall (fun d => cur <= d <= end_ /\ weekday d < 5) (yielded cur end_).
Proof.
  funelim (yielded cur end_); [ | constructor ].
  apply Forall_app. split.
  - case_match; [ constructor; [ lia | constructor ] | constructor ].
  - pose proof (BDay_forward cur).
    eapply Forall_impl; [ eassumption | ].
    simpl. intros d [Hd Hw]. split; [ lia | exact Hw ].
Qed.

Lemma yielded_increasing cur end_ :
  StronglySorted Z.lt (yielded cur end_).
Proof.
  funelim (yielded cur end_); [ | constructor ].
  pose proof (BDay_forward cur).
  pose proof (yielded_bounds (cur + BDay cur) end_) as Hb.
  case_match; simpl; [ | assumption ].
  constructor; [ assumption | ].
  eapply Forall_impl; [ exact Hb | ].
  simpl. intros d [Hd _]. lia.
Qed.

(** C4: for all bounds, the strings [daterange] yields are the
    [%Y-%m-%d] renderings of days that each fall on Monday (0) to
    Friday (4), lie between [start] and [end_] inclusive, and come in
    strictly increasing order. *)
Theorem daterange_weekdays_in_range_increasing (start end_ : Z) :
  daterange start end_ = map strftime (yielded start end_) /\
  Forall (fun d => 0 <= weekday d <= 4 /\ start <= d <= end_)
         (yielded start end_) /\
  StronglySorted Z.lt (yielded start end_).
Proof.
  split; [ apply daterange_yielded | ].
  split; [ | apply yielded_increasing ].
  eapply Forall_impl; [ apply yielded_bounds | ].
  simpl. intros d [Hd Hw].
  pose proof (weekday_range d). lia.
Qed.

(** C5: when [start] is after [end_] the loop condition fails at once;
    the generator finishes without yielding, and nothing in it can
    raise. *)
Theorem daterange_start_after_end (start end_ : Z) :
  start > end_ -> daterange start end_ = [].
Proof.
  intros Hgt. simp daterange.
  destruct (Z_le_dec start end_) as [Hle | Hnle]; [ lia | reflexivity ].
Qed.

Lemma daterange_start_after_end_witness :
  20248 > 20241 /\ daterange 20248 20241 = [].
Proof.
  split; [ lia | apply (daterange_start_after_end 20248 20241); lia ].
Defined.

Example daterange_june_2025 :
  daterange 20240 20248 =
  ["2025-06-02"; "2025-06-03"; "2025-06-04"; "2025-06-05"; "2025-06-06";
   "2025-06-09"]%string.
Proof. reflexivity. Qed.

End SequencerFacts.

(** ** The day fetcher *)

Module FetcherFacts.
Import Fetcher.

(** The [t] column read as UTC timestamps. *)
Abbreviation utc_column rs :=
  (map (fun r => Instant {| epoch_ms := agg_t r; tz := UTC |}) rs).

Lemma to_datetime_cases (rs : list Agg) :
  to_datetime_ms_utc (integer_column agg_t rs)
  = if timestamps_in_bounds rs then Return (utc_column rs)
    else Raise OutOfBoundsDatetime.
Proof.
  unfold to_datetime_ms_utc, integer_column.
  induction rs as [ | r rs IH]; [ reflexivity | ].
  cbn [map each timestamps_in_bounds forallb].
  destruct (in_bounds (agg_t r)); [ | reflexivity ].
  cbn [bind Return andb]. rewrite IH.
  fold (timestamps_in_bounds rs).
  destruct (timestamps_in_bounds rs); reflexivity.
Qed.

Lemma tz_convert_utc_column (rs : list Agg) :
  tz_convert America_New_York (utc_column rs) = Return (new_york rs).
Proof.
  unfold tz_convert, new_york.
  induction rs as [ | r rs IH]; [ reflexivity | ].
  cbn [map each bind Return]. rewrite IH. reflexivity.
Qed.


Lemma frame_of_records (r : Agg) (rs : list Agg) :
  (t <- getitem (DataFrame_of_records (r :: rs)) "t" ;;
   utc <- to_datetime_ms_utc t ;;
   local <- tz_convert America_New_York utc ;;
   let df := setitem (DataFrame_of_records (r :: rs)) "datetime" local in
   df <- getitems df ["datetime"; "o"; "h"; "l"; "c"; "v"]%string ;;
   set_index
     (rename df [("o", "open"); ("h", "high"); ("l", "low");
                 ("c", "close"); ("v", "volume")]%string)
     "datetime")
  = if timestamps_in_bounds (r :: rs) then Return (bars (r :: rs))
    else Raise OutOfBoundsDatetime.
Proof.
  unfold getitem at 1.
  change (assoc "t" (columns (DataFrame_of_records (r :: rs))))
    with (Some (integer_column agg_t (r :: rs))).
  unfold bind at 1. unfold Return at 1.
  rewrite to_datetime_cases.
  destruct (timestamps_in_bounds (r :: rs)); [ | reflexivity ].
  unfold bind at 1. unfold Return at 1.
  rewrite tz_convert_utc_column.
  reflexivity.
Qed.



Section OneCall.
Variable get : Request -> Reply.
Variables API_KEY ticker day : string.

(** How [fetch_day] goes once the reply is a success with an object. *)
Lemma fetch_day_success (status_code : Z) (js : Body) :
  get (request_for API_KEY ticker day) = Response status_code (Some js) ->
  successful status_code ->
  fetch_day get API_KEY ticker day =
  if eq_zero (default (JNumber 0) (resultsCount js))
  then Return DataFrame_empty
  else match results js with
       | None => Raise (KeyError "results")
       | Some [] => Raise (KeyError "t")
       | Some rs =>
           if timestamps_in_bounds rs then Return (bars rs)
           else Raise OutOfBoundsDatetime
       end.
Proof.
  intros Hget Hok. unfold fetch_day. rewrite Hget, Hok.
  unfold bind at 1.
  destruct (eq_zero _); [ reflexivity | ].
  destruct (results js) as [[ | r rs] | ]; [ reflexivity | | reflexivity ].
  apply frame_of_records.
Qed.


(** C10: on a success whose body has no [resultsCount], or has it equal
    to 0, [fetch_day] returns the empty frame whatever [results] is:
    absent, empty or holding records. *)
Theorem fetch_day_zero_count_ignores_results
    (status_code : Z) (count : option JValue) (rs : option (list Agg)) :
  get (request_for API_KEY ticker day)
    = Response status_code
        (Some {| resultsCount := count; results := rs |}) ->
  successful status_code ->
  count = None \/ (exists q, count = Some (JNumber q) /\ (q == 0)%Q) ->
  fetch_day get API_KEY ticker day = Return DataFrame_empty.
Proof.
  intros Hget Hok Hcount.
  rewrite (fetch_day_success _ _ Hget Hok). simpl.
  destruct Hcount as [-> | [q [-> Hq]]]; simpl; [ reflexivity | ].
  apply Qeq_bool_iff in Hq. rewrite Hq. reflexivity.
Qed.

End OneCall.


Lemma fetch_day_zero_count_ignores_results_witness :
  fetch_day (always (Response 200 (Some body_uncounted)))
            "KEY" "SPY" "2025-06-02"
  = Return DataFrame_empty.
Proof.
  apply (fetch_day_zero_count_ignores_results
           (always (Response 200 (Some body_uncounted)))
           "KEY" "SPY" "2025-06-02" 200 None
           (Some [agg_at 1748871000000]) eq_refl eq_refl).
  left. reflexivity.
Defined.


End FetcherFacts.

(** ** The orchestrator *)

Module OrchestratorFacts.
Import Calendar Sequencer Fetcher Orchestrator.

Section Run.
Variable W : World.
Variable API_KEY : string.
Variable args : Args.

Abbreviation body := (body W API_KEY args).
Abbreviation loop := (loop W API_KEY args).
Abbreviation path day := (csv_path_of (out args) (ticker args) day).

(** *** One iteration, case by case *)

Lemma body_skip st day df :
  files st !! path day = Some df ->
  body st day = print (skip (path day)) st.
Proof. intros Hex. unfold Orchestrator.body. rewrite Hex. reflexivity. Qed.

Lemma body_raise st day e :
  files st !! path day = None ->
  fetch_day (network W (clock (rate_limit st))) API_KEY (ticker args) day
    = Raise e ->
  body st day
  = print (warn day e) (snd (call_fetch_day W API_KEY args day (rate_limit st))).
Proof.
  intros Hnew Hraise. unfold Orchestrator.body. rewrite Hnew.
  unfold call_fetch_day. rewrite Hraise. reflexivity.
Qed.

Lemma body_return st day df :
  files st !! path day = None ->
  fetch_day (network W (clock (rate_limit st))) API_KEY (ticker args) day
    = Return df ->
  body st day
  = let st1 := snd (call_fetch_day W API_KEY args day (rate_limit st)) in
    count_request
      (if empty df then print (info day) st1
       else print (ok (path day) (len df)) (to_csv (path day) df st1)).
Proof.
  intros Hnew Hret. unfold Orchestrator.body. rewrite Hnew.
  unfold call_fetch_day. rewrite Hret. reflexivity.
Qed.

Lemma files_rate_limit st : files (rate_limit st) = files st.
Proof.
  unfold rate_limit. destruct (reqs_in_window st =? 5); [ | reflexivity ].
  destruct (Qlt_le_dec _ _); reflexivity.
Qed.

(** An iteration leaves the files alone or creates the day's file. *)
Lemma body_files st day :
  files (body st day) = files st \/
  exists df, files st !! path day = None /\
             files (body st day) = <[path day := df]> (files st).
Proof.
  destruct (files st !! path day) as [df | ] eqn:Hex.
  - left. rewrite (body_skip _ _ _ Hex). reflexivity.
  - destruct (fetch_day (network W (clock (rate_limit st))) API_KEY
                (ticker args) day) as [e | df] eqn:Hf.
    + left. rewrite (body_raise _ _ _ Hex Hf). simpl. apply files_rate_limit.
    + rewrite (body_return _ _ _ Hex Hf). simpl.
      destruct (empty df); simpl.
      * left. apply files_rate_limit.
      * right. exists df. rewrite files_rate_limit. auto.
Qed.

Lemma body_keeps_files st day : files st ⊆ files (body st day).
Proof.
  destruct (body_files st day) as [-> | [df [Hnew ->]]]; [ reflexivity | ].
  apply insert_subseteq. exact Hnew.
Qed.

Lemma loop_keeps_files days st : files st ⊆ files (loop days st).
Proof.
  revert st. induction days as [ | day days IH]; intros st; simpl.
  - reflexivity.
  - etransitivity; [ apply body_keeps_files | apply IH ].
Qed.

Lemma loop_keeps_file days st p :
  is_Some (files st !! p) -> is_Some (files (loop days st) !! p).
Proof.
  intros [df Hp]. exists df.
  eapply lookup_weaken; [ exact Hp | apply loop_keeps_files ].
Qed.

(** *** What an iteration adds to the trace *)

Lemma rate_limit_fetches st at_ tk d :
  In (Fetch at_ tk d) (trace (rate_limit st)) -> In (Fetch at_ tk d) (trace st).
Proof.
  unfold rate_limit. destruct (reqs_in_window st =? 5); [ | auto ].
  destruct (Qlt_le_dec _ _); simpl; [ | auto ].
  intros [Habs | Hin]; [ discriminate | exact Hin ].
Qed.

Lemma rate_limit_writes st p df :
  In (ToCsv p df) (trace (rate_limit st)) -> In (ToCsv p df) (trace st).
Proof.
  unfold rate_limit. destruct (reqs_in_window st =? 5); [ | auto ].
  destruct (Qlt_le_dec _ _); simpl; [ | auto ].
  intros [Habs | Hin]; [ discriminate | exact Hin ].
Qed.

(** A call of [fetch_day] for day [d] enters the trace only in the
    iteration of [d], and only when the day's file is not there. *)
Lemma body_fetches st day at_ tk d :
  In (Fetch at_ tk d) (trace (body st day)) ->
  In (Fetch at_ tk d) (trace st) \/ (d = day /\ files st !! path day = None).
Proof.
  destruct (files st !! path day) as [df | ] eqn:Hex.
  - rewrite (body_skip _ _ _ Hex). simpl.
    intros [Habs | Hin]; [ discriminate | auto ].
  - destruct (fetch_day (network W (clock (rate_limit st))) API_KEY
                (ticker args) day) as [e | df] eqn:Hf.
    + rewrite (body_raise _ _ _ Hex Hf). simpl.
      intros [Habs | [Heq | Hin]]; [ discriminate | | ].
      * injection Heq as _ _ <-. auto.
      * left. apply rate_limit_fetches, Hin.
    + rewrite (body_return _ _ _ Hex Hf). simpl.
      destruct (empty df); simpl.
      * intros [Habs | [Heq | Hin]]; [ discriminate | | ].
        -- injection Heq as _ _ <-. auto.
        -- left. apply rate_limit_fetches, Hin.
      * intros [Habs | [Habs | [Heq | Hin]]]; [ discriminate | discriminate | | ].
        -- injection Heq as _ _ <-. auto.
        -- left. apply rate_limit_fetches, Hin.
Qed.

(** When the day's file is not there, the iteration calls [fetch_day]
    for the day, right after the rate-limit block. *)
Lemma body_fetch_when_new st day :
  files st !! path day = None ->
  In (Fetch (clock (rate_limit st)) (ticker args) day) (trace (body st day)).
Proof.
  intros Hex.
  destruct (fetch_day (network W (clock (rate_limit st))) API_KEY
              (ticker args) day) as [e | df] eqn:Hf.
  - rewrite (body_raise _ _ _ Hex Hf). simpl. auto.
  - rewrite (body_return _ _ _ Hex Hf). simpl.
    destruct (empty df); simpl; auto.
Qed.

(** A file written in an iteration is there after it. *)
Lemma body_writes st day p df :
  In (ToCsv p df) (trace (body st day)) ->
  In (ToCsv p df) (trace st) \/ is_Some (files (body st day) !! p).
Proof.
  destruct (files st !! path day) as [df0 | ] eqn:Hex.
  - rewrite (body_skip _ _ _ Hex). simpl.
    intros [Habs | Hin]; [ discriminate | auto ].
  - destruct (fetch_day (network W (clock (rate_limit st))) API_KEY
                (ticker args) day) as [e | df1] eqn:Hf.
    + rewrite (body_raise _ _ _ Hex Hf). simpl.
      intros [Habs | [Habs | Hin]]; [ discriminate | discriminate | ].
      left. apply rate_limit_writes, Hin.
    + rewrite (body_return _ _ _ Hex Hf). simpl.
      destruct (empty df1); simpl.
      * intros [Habs | [Habs | Hin]]; [ discriminate | discriminate | ].
        left. apply rate_limit_writes, Hin.
      * intros [Habs | [Heq | [Habs | Hin]]]; [ discriminate | | discriminate | ].
        -- injection Heq as <- <-. right.
           rewrite lookup_insert_eq. eauto.
        -- left. apply rate_limit_writes, Hin.
Qed.

(** *** Whole runs *)

Lemma body_written st day : written st -> written (body st day).
Proof.
  intros Hst p df Hin.
  destruct (body_writes _ _ _ _ Hin) as [Hold | Hnow]; [ | exact Hnow ].
  destruct (Hst _ _ Hold) as [df0 Hp]. exists df0.
  eapply lookup_weaken; [ exact Hp | apply body_keeps_files ].
Qed.

Lemma loop_written days st : written st -> written (loop days st).
Proof.
  revert st. induction days as [ | day days IH]; intros st Hst; simpl.
  - exact Hst.
  - apply IH, body_written, Hst.
Qed.

(** Once the file of day [d] is there, no iteration calls [fetch_day]
    for [d] any more. *)
Lemma loop_never_fetches days st d at_ tk :
  is_Some (files st !! path d) ->
  In (Fetch at_ tk d) (trace (loop days st)) ->
  In (Fetch at_ tk d) (trace st).
Proof.
  revert st. induction days as [ | day days IH]; intros st Hex Hin; simpl in *.
  - exact Hin.
  - assert (Hex' : is_Some (files (body st day) !! path d)).
    { destruct Hex as [df Hp]. exists df.
      eapply lookup_weaken; [ exact Hp | apply body_keeps_files ]. }
    specialize (IH _ Hex' Hin).
    destruct (body_fetches _ _ _ _ _ IH) as [Hold | [-> Hnew]]; [ exact Hold | ].
    destruct Hex as [df Hp]. congruence.
Qed.

(** *** The request counter *)

Lemma rate_limit_count st :
  0 <= reqs_in_window st <= 5 -> 0 <= reqs_in_window (rate_limit st) <= 4.
Proof.
  unfold rate_limit. destruct (reqs_in_window st =? 5) eqn:H5.
  - intros _. destruct (Qlt_le_dec _ _); simpl; lia.
  - lia.
Qed.

(** With five requests counted, the block waits out the window: the
    clock is at least 60 seconds past the old window start when the new
    window opens. *)
Lemma rate_limit_waits st :
  reqs_in_window st = 5 ->
  (window_start st + 60 <= clock (rate_limit st))%Q /\
  window_start (rate_limit st) = clock (rate_limit st) /\
  reqs_in_window (rate_limit st) = 0.
Proof.
  intros H5. unfold rate_limit. rewrite H5. simpl.
  destruct (Qlt_le_dec _ _) as [Hlt | Hle]; simpl; repeat split; lra.
Qed.

(** The counter never passes five. *)
Lemma body_count st day :
  0 <= reqs_in_window st <= 5 -> 0 <= reqs_in_window (body st day) <= 5.
Proof.
  intros Hst. pose proof (rate_limit_count st Hst) as Hrl.
  destruct (files st !! path day) as [df | ] eqn:Hex.
  - rewrite (body_skip _ _ _ Hex). exact Hst.
  - destruct (fetch_day (network W (clock (rate_limit st))) API_KEY
                (ticker args) day) as [e | df] eqn:Hf.
    + rewrite (body_raise _ _ _ Hex Hf). simpl. lia.
    + rewrite (body_return _ _ _ Hex Hf). simpl.
      destruct (empty df); simpl; lia.
Qed.

(** A call that returns is counted; a call that raises is not. *)
Lemma body_return_counts st day df :
  files st !! path day = None ->
  fetch_day (network W (clock (rate_limit st))) API_KEY (ticker args) day
    = Return df ->
  reqs_in_window (body st day) = reqs_in_window (rate_limit st) + 1.
Proof.
  intros Hex Hf. rewrite (body_return _ _ _ Hex Hf). simpl.
  destruct (empty df); reflexivity.
Qed.

Lemma body_raise_does_not_count st day e :
  files st !! path day = None ->
  fetch_day (network W (clock (rate_limit st))) API_KEY (ticker args) day
    = Raise e ->
  reqs_in_window (body st day) = reqs_in_window (rate_limit st).
Proof.
  intros Hex Hf. rewrite (body_raise _ _ _ Hex Hf). reflexivity.
Qed.

(** *** The window when every call returns *)

Ltac state_simpl :=
  cbn [files reqs_in_window window_start clock trace
       print sleep new_window count_request to_csv call_fetch_day
       fst snd List.filter is_fetch_since length].

Lemma no_calls_since ws t tr :
  fetched_before t tr -> (t <= ws)%Q ->
  List.filter (is_fetch_since ws) tr = [].
Proof.
  intros Hpast Hle. induction tr as [ | e tr IH]; [ reflexivity | ].
  assert (Htr : fetched_before t tr).
  { intros at_ tk d Hin. apply (Hpast at_ tk d). right. exact Hin. }
  simpl. rewrite (IH Htr).
  destruct e as [line | secs | at_ tk d | p df]; simpl; try reflexivity.
  destruct (Qle_bool ws at_) eqn:Hb; [ | reflexivity ].
  apply Qle_bool_iff in Hb.
  pose proof (Hpast at_ tk d (or_introl eq_refl)). lra.
Qed.

Lemma fetched_before_later t t' tr :
  fetched_before t tr -> (t <= t')%Q -> fetched_before t' tr.
Proof. intros Hpast Hle at_ tk d Hin. pose proof (Hpast _ _ _ Hin). lra. Qed.

Lemma fetched_before_cons t e tr :
  (forall at_ tk d, e = Fetch at_ tk d -> (at_ < t)%Q) ->
  fetched_before t tr -> fetched_before t (e :: tr).
Proof.
  intros He Htr at_ tk d [Heq | Hin]; [ apply (He _ tk d); auto | eauto ].
Qed.

Lemma rate_limit_ok st : window_ok st -> window_ok (rate_limit st).
Proof.
  intros [Hrange Hexact Hstart Hpast]. unfold rate_limit.
  destruct (reqs_in_window st =? 5); [ | split; assumption ].
  destruct (Qlt_le_dec _ _) as [Hlt | Hle];
    split; unfold calls_in_window; state_simpl; try lia; try lra.
  - erewrite (no_calls_since _ (clock st)); [ reflexivity | exact Hpast | lra ].
  - apply fetched_before_cons; [ discriminate | ].
    eapply fetched_before_later; [ exact Hpast | lra ].
  - erewrite (no_calls_since _ (clock st)); [ reflexivity | exact Hpast | lra ].
  - exact Hpast.
Qed.

(** An iteration whose call returns keeps the counter true. *)
Lemma body_ok st day :
  always_returns W API_KEY args -> window_ok st -> window_ok (body st day).
Proof.
  intros [Hret Hlat] Hst.
  destruct (files st !! path day) as [df | ] eqn:Hex.
  - rewrite (body_skip _ _ _ Hex). destruct Hst as [Hrange Hexact Hstart Hpast].
    split; unfold calls_in_window in *; simpl; try assumption.
    apply fetched_before_cons; [ discriminate | exact Hpast ].
  - pose proof (rate_limit_count st (count_range _ Hst)) as Hfour.
    destruct (rate_limit_ok st Hst) as [_ Hexact Hstart Hpast].
    destruct (fetch_day (network W (clock (rate_limit st))) API_KEY
                (ticker args) day) as [e | df] eqn:Hf.
    { exfalso. apply (Hret _ _ _ Hf). }
    rewrite (body_return _ _ _ Hex Hf). simpl.
    pose proof (Hlat (clock (rate_limit st))
                  (request_for API_KEY (ticker args) day)) as Hpos.
    assert (Hnow : Qle_bool (window_start (rate_limit st))
                     (clock (rate_limit st)) = true)
      by (apply Qle_bool_iff; exact Hstart).
    assert (Hcall : fetched_before
              (clock (rate_limit st)
               + latency W (clock (rate_limit st))
                   (request_for API_KEY (ticker args) day))
              (Fetch (clock (rate_limit st)) (ticker args) day
                 :: trace (rate_limit st))).
    { apply fetched_before_cons.
      - intros at_ tk d Heq. injection Heq as <- _ _. lra.
      - eapply fetched_before_later; [ exact Hpast | lra ]. }
    unfold calls_in_window in Hexact.
    destruct (empty df); split; unfold calls_in_window; simpl;
      rewrite ?Hnow; simpl; try lia; try lra;
      repeat (apply fetched_before_cons; [ discriminate | ]); exact Hcall.
Qed.

Lemma loop_ok days st :
  always_returns W API_KEY args -> window_ok st -> window_ok (loop days st).
Proof.
  intros HW. revert st. induction days as [ | day days IH]; intros st Hst; simpl.
  - exact Hst.
  - apply IH, body_ok; assumption.
Qed.

Lemma init_ok fs now : window_ok (init fs now).
Proof.
  split; unfold calls_in_window; simpl; try lia; try lra.
  intros at_ tk d [].
Qed.

(** When every call returns, at any point of the run at most five calls
    have gone out since the current window started. *)
Lemma returning_calls_fill_window fs now days :
  always_returns W API_KEY args ->
  0 <= calls_in_window (loop days (init fs now)) <= 5.
Proof.
  intros HW.
  destruct (loop_ok days (init fs now) HW (init_ok fs now))
    as [Hrange Hexact _ _].
  lia.
Qed.

End Run.

(** *** Two runs over the same output directory *)

(** A day whose file the first run wrote is never fetched by a second
    run that computes the same path for it. *)
Lemma second_run_never_fetches
    W1 key1 args1 W2 key2 args2 fs now1 now2 day df at_ tk :
  csv_path_of (out args1) (ticker args1) day
    = csv_path_of (out args2) (ticker args2) day ->
  In (ToCsv (csv_path_of (out args1) (ticker args1) day) df)
     (trace (main W1 key1 args1 fs now1)) ->
  ~ In (Fetch at_ tk day)
       (trace (main W2 key2 args2 (files (main W1 key1 args1 fs now1)) now2)).
Proof.
  intros Hpath Hwrote Hfetch.
  assert (Hthere : is_Some (files (main W1 key1 args1 fs now1)
                              !! csv_path_of (out args2) (ticker args2) day)).
  { rewrite <- Hpath. unfold main in *.
    eapply loop_written; [ | exact Hwrote ].
    intros p df0 []. }
  unfold main at 1 in Hfetch.
  apply loop_never_fetches in Hfetch; [ | exact Hthere ].
  destruct Hfetch.
Qed.

(** C6: when the day's file is there, the iteration prints the skip
    line and does nothing else: no call of [fetch_day], no read of the
    clock, counter and window start as they were.  So a second run with
    the same arguments, over the files the first run left, never calls
    [fetch_day] for a day whose file the first run wrote. *)
Theorem existing_file_means_no_fetch :
  (forall W key args st day df,
      files st !! csv_path_of (out args) (ticker args) day = Some df ->
      let st' := body W key args st day in
      trace st' = Print (skip (csv_path_of (out args) (ticker args) day))
                    :: trace st /\
      reqs_in_window st' = reqs_in_window st /\
      window_start st' = window_start st /\
      clock st' = clock st /\
      files st' = files st) /\
  (forall W1 W2 key args fs now1 now2 day df,
      In (ToCsv (csv_path_of (out args) (ticker args) day) df)
         (trace (main W1 key args fs now1)) ->
      forall at_ tk,
        ~ In (Fetch at_ tk day)
             (trace (main W2 key args (files (main W1 key args fs now1)) now2))).
Proof.
  split.
  - intros W key args st day df Hex. simpl.
    rewrite (body_skip _ _ _ _ _ _ Hex). repeat split.
  - intros W1 W2 key args fs now1 now2 day df Hwrote at_ tk.
    eapply second_run_never_fetches; [ reflexivity | exact Hwrote ].
Qed.

(** C7: an iteration leaves the files as they are or adds the day's
    file where there was none; so every file keeps its content through
    a run, and through any later run, whatever its arguments. *)
Theorem existing_files_are_never_overwritten :
  (forall W key args st day,
      files st ⊆ files (body W key args st day) /\
      (files (body W key args st day) = files st \/
       exists df,
         files st !! csv_path_of (out args) (ticker args) day = None /\
         files (body W key args st day)
           = <[csv_path_of (out args) (ticker args) day := df]> (files st))) /\
  (forall W key args fs now, fs ⊆ files (main W key args fs now)) /\
  (forall W1 key1 args1 W2 key2 args2 fs now1 now2,
      fs ⊆ files (main W2 key2 args2 (files (main W1 key1 args1 fs now1)) now2)).
Proof.
  split; [ | split ].
  - intros W key args st day. split.
    + apply body_keeps_files.
    + apply body_files.
  - intros W key args fs now. unfold main.
    apply (loop_keeps_files W key args _ (init fs now)).
  - intros W1 key1 args1 W2 key2 args2 fs now1 now2.
    transitivity (files (main W1 key1 args1 fs now1)); unfold main.
    + apply (loop_keeps_files W1 key1 args1 _ (init fs now1)).
    + apply (loop_keeps_files W2 key2 args2 _ (init _ now2)).
Qed.

(** C8: when the day's file is not there and [fetch_day] raises [e],
    the iteration adds the call and the warning line with the day and
    [e] to the trace and leaves the files as they were; the loop then
    runs the iteration of the next day from that state, and fetches
    that day if its file is not there. *)
Theorem fetch_error_warns_and_moves_on W key args st day e next rest :
  files st !! csv_path_of (out args) (ticker args) day = None ->
  fetch_day (network W (clock (rate_limit st))) key (ticker args) day
    = Raise e ->
  let st' := body W key args st day in
  trace st' = Print (warn day e)
                :: Fetch (clock (rate_limit st)) (ticker args) day
                :: trace (rate_limit st) /\
  files st' = files st /\
  loop W key args (day :: next :: rest) st
    = loop W key args rest (body W key args st' next) /\
  (files st !! csv_path_of (out args) (ticker args) next = None ->
   In (Fetch (clock (rate_limit st')) (ticker args) next)
      (trace (body W key args st' next))).
Proof.
  intros Hex Hf.
  assert (Hfiles : files (body W key args st day) = files st).
  { rewrite (body_raise _ _ _ _ _ _ Hex Hf). simpl. apply files_rate_limit. }
  cbv zeta. split; [ | split; [ exact Hfiles | split; [ reflexivity | ] ] ].
  - rewrite (body_raise _ _ _ _ _ _ Hex Hf). reflexivity.
  - intros Hnext. apply body_fetch_when_new. rewrite Hfiles. exact Hnext.
Qed.

Lemma replace_colon_example : replace_colon "I:SPX" = replace_colon "I_SPX".
Proof. reflexivity. Qed.

(** C9: two tickers that agree once [:] is replaced by [_] get the same
    path for the same day; a file that a run for the first ticker wrote
    makes every later run for the second one, over the same directory,
    skip that day without calling [fetch_day]. *)
Theorem tickers_equal_after_replace_share_files tk1 tk2 :
  replace_colon tk1 = replace_colon tk2 ->
  (forall outdir day, csv_path_of outdir tk1 day = csv_path_of outdir tk2 day) /\
  (forall W key args st day df,
      ticker args = tk2 ->
      files st !! csv_path_of (out args) tk1 day = Some df ->
      body W key args st day
      = print (skip (csv_path_of (out args) tk2 day)) st) /\
  (forall W1 key1 args1 W2 key2 args2 fs now1 now2 day df,
      ticker args1 = tk1 -> ticker args2 = tk2 -> out args1 = out args2 ->
      In (ToCsv (csv_path_of (out args1) tk1 day) df)
         (trace (main W1 key1 args1 fs now1)) ->
      forall at_ tk,
        ~ In (Fetch at_ tk day)
             (trace (main W2 key2 args2
                       (files (main W1 key1 args1 fs now1)) now2))).
Proof.
  intros Hrep.
  assert (Hpath : forall outdir day,
             csv_path_of outdir tk1 day = csv_path_of outdir tk2 day).
  { intros outdir day. unfold csv_path_of. rewrite Hrep. reflexivity. }
  split; [ exact Hpath | split ].
  - intros W key args st day df <- Hex. rewrite Hpath in Hex.
    apply (body_skip _ _ _ _ _ _ Hex).
  - intros W1 key1 args1 W2 key2 args2 fs now1 now2 day df <- <- Hout Hwrote
           at_ tk.
    eapply second_run_never_fetches; [ | exact Hwrote ].
    rewrite Hout. apply Hpath.
Qed.

(** *** The runs of the sample command lines *)

Example run_spx_colon :
  trace (main serving "KEY" spx_colon ∅ 0%Q)
  = [Print (ok "data/I_SPX_2025-06-02.csv" 2);
     ToCsv "data/I_SPX_2025-06-02.csv"
           (bars [agg_at 1748871000000; agg_at 1748871060000]);
     Fetch 0%Q "I:SPX" "2025-06-02"].
Proof. vm_compute. reflexivity. Qed.

Example rerun_spx_underscore :
  trace (main serving "KEY" spx_underscore
              (files (main serving "KEY" spx_colon ∅ 0%Q)) 0%Q)
  = [Print (skip "data/I_SPX_2025-06-02.csv")].
Proof. vm_compute. reflexivity. Qed.

Lemma existing_file_means_no_fetch_witness :
  In (ToCsv (csv_path_of (out spx_colon) (ticker spx_colon) "2025-06-02")
            (bars [agg_at 1748871000000; agg_at 1748871060000]))
     (trace (main serving "KEY" spx_colon ∅ 0%Q)) /\
  ~ In (Fetch 0%Q "I:SPX" "2025-06-02")
       (trace (main refusing "KEY" spx_colon
                 (files (main serving "KEY" spx_colon ∅ 0%Q)) 0%Q)).
Proof.
  assert (Hwrote :
    In (ToCsv (csv_path_of (out spx_colon) (ticker spx_colon) "2025-06-02")
              (bars [agg_at 1748871000000; agg_at 1748871060000]))
       (trace (main serving "KEY" spx_colon ∅ 0%Q))).
  { vm_compute. right. left. reflexivity. }
  split; [ exact Hwrote | ].
  exact (proj2 existing_file_means_no_fetch
           serving refusing "KEY"%string spx_colon ∅ 0%Q 0%Q
           "2025-06-02"%string _ Hwrote 0%Q "I:SPX"%string).
Defined.

Lemma fetch_error_warns_and_moves_on_witness :
  files (init ∅ 0%Q)
    !! csv_path_of (out six_days) (ticker six_days) "2025-06-02" = None /\
  fetch_day (network refusing (clock (rate_limit (init ∅ 0%Q)))) "KEY"
            (ticker six_days) "2025-06-02" = Raise (HTTPError 429) /\
  trace (body refusing "KEY" six_days (init ∅ 0%Q) "2025-06-02")
  = [Print (warn "2025-06-02" (HTTPError 429));
     Fetch 0%Q "SPY" "2025-06-02"] /\
  files (body refusing "KEY" six_days (init ∅ 0%Q) "2025-06-02") = ∅ /\
  In (Fetch 1%Q "SPY" "2025-06-03")
     (trace (body refusing "KEY" six_days
               (body refusing "KEY" six_days (init ∅ 0%Q) "2025-06-02")
               "2025-06-03")).
Proof.
  assert (Hnew : files (init ∅ 0%Q)
            !! csv_path_of (out six_days) (ticker six_days) "2025-06-02"
            = None) by reflexivity.
  assert (Hraise : fetch_day (network refusing (clock (rate_limit (init ∅ 0%Q))))
            "KEY" (ticker six_days) "2025-06-02" = Raise (HTTPError 429))
    by reflexivity.
  destruct (fetch_error_warns_and_moves_on
              refusing "KEY"%string six_days (init ∅ 0%Q) "2025-06-02"%string
              (HTTPError 429) "2025-06-03"%string [] Hnew Hraise)
    as (Htrace & Hfiles & _ & Hnext).
  split; [ exact Hnew | ].
  split; [ exact Hraise | ].
  split; [ exact Htrace | ].
  split; [ exact Hfiles | ].
  apply Hnext. reflexivity.
Defined.

Lemma tickers_equal_after_replace_share_files_witness :
  replace_colon "I:SPX" = replace_colon "I_SPX" /\
  csv_path_of "data" "I:SPX" "2025-06-02"
    = csv_path_of "data" "I_SPX" "2025-06-02" /\
  ~ In (Fetch 0%Q "I_SPX" "2025-06-02")
       (trace (main serving "KEY" spx_underscore
                 (files (main serving "KEY" spx_colon ∅ 0%Q)) 0%Q)).
Proof.
  destruct (tickers_equal_after_replace_share_files
              "I:SPX"%string "I_SPX"%string eq_refl) as (Hpath & _ & Hrun).
  split; [ reflexivity | ].
  split; [ apply Hpath | ].
  apply (Hrun serving "KEY"%string spx_colon serving "KEY"%string
              spx_underscore ∅ 0%Q 0%Q "2025-06-02"%string
              (bars [agg_at 1748871000000; agg_at 1748871060000])
              eq_refl eq_refl eq_refl).
  vm_compute. right. left. reflexivity.
Defined.

(** *** Calls that raise and the request counter *)

(** C2 on a refused call: [fetch_day] is called, the provider answers
    429, the warning is printed, and the counter stays where it was. *)
Theorem refused_call_is_not_counted :
  let st := init ∅ 0%Q in
  let st' := body refusing "KEY" six_days st "2025-06-02" in
  trace st' = [Print (warn "2025-06-02" (HTTPError 429));
               Fetch 0%Q "SPY" "2025-06-02"] /\
  reqs_in_window st = 0 /\
  reqs_in_window st' = 0.
Proof. vm_compute. repeat split. Qed.

(** The same call, answered: the counter goes up by one. *)
Example served_call_is_counted :
  reqs_in_window (body serving "KEY" six_days (init ∅ 0%Q) "2025-06-02") = 1.
Proof. vm_compute. reflexivity. Qed.

(** C1 on six refused calls: all six go out within six seconds of the
    window start, the block never sleeps, and the counter ends at 0. *)
Theorem six_refused_calls_in_one_window :
  let st := main refusing "KEY" six_days ∅ 0%Q in
  List.filter (is_fetch_at 0 60) (trace st)
  = [Fetch 5%Q "SPY" "2025-06-09"; Fetch 4%Q "SPY" "2025-06-06";
     Fetch 3%Q "SPY" "2025-06-05"; Fetch 2%Q "SPY" "2025-06-04";
     Fetch 1%Q "SPY" "2025-06-03"; Fetch 0%Q "SPY" "2025-06-02"] /\
  dispatched_between 0 60 (trace st) = 6%nat /\
  List.filter is_sleep (trace st) = [] /\
  window_start st = 0%Q /\
  reqs_in_window st = 0.
Proof. vm_compute. repeat split. Qed.

Example serving_always_returns : always_returns serving "KEY" six_days.
Proof.
  split.
  - intros now day e Hraise. vm_compute in Hraise. discriminate Hraise.
  - intros now req. reflexivity.
Qed.

Example six_served_calls_counted :
  calls_in_window (main serving "KEY" six_days ∅ 0%Q) = 1 /\
  0 <= calls_in_window (main serving "KEY" six_days ∅ 0%Q) <= 5.
Proof.
  split; [ vm_compute; reflexivity | ].
  apply returning_calls_fill_window, serving_always_returns.
Qed.

(** The same six days, answered: the sixth call waits for the window
    to end. *)
Example six_served_calls_wait :
  let st := main serving "KEY" six_days ∅ 0%Q in
  dispatched_between 0 60 (trace st) = 5%nat /\
  dispatched_between 60 120 (trace st) = 1%nat /\
  length (List.filter is_sleep (trace st)) = 1%nat.
Proof. vm_compute. repeat split. Qed.

End OrchestratorFacts.

(** * Further properties *)

(** ** The sequencer: which days, and ranges in pieces *)

Module SequencerCoverage.
Import Calendar Sequencer SequencerFacts.

(** The step lands on the first Monday-to-Friday day after [cur]. *)
Lemma BDay_first_weekday cur d :
  cur < d -> weekday d < 5 -> cur + BDay cur <= d.
Proof.
  unfold BDay, weekday. intros Hlt Hw.
  repeat case_match; Z.div_mod_to_equations; lia.
Qed.

Lemma yielded_every_weekday cur end_ :
  forall d, cur <= d <= end_ -> weekday d < 5 -> In d (yielded cur end_).
Proof.
  funelim (yielded cur end_); intros d Hd Hw; [ | lia ].
  apply in_or_app.
  destruct (Z.eq_dec d cur) as [-> | Hne].
  - left. apply Z.ltb_lt in Hw. rewrite Hw. left. reflexivity.
  - right.
    match goal with IH : forall d, _ -> _ -> In d _ |- _ => apply IH end;
      [ | exact Hw ].
    pose proof (BDay_first_weekday cur d ltac:(lia) Hw). lia.
Qed.

(** Two strictly increasing lists with the same members are equal. *)
Lemma increasing_ext (l1 l2 : list Z) :
  StronglySorted Z.lt l1 -> StronglySorted Z.lt l2 ->
  (forall x, In x l1 <-> In x l2) -> l1 = l2.
Proof.
  revert l2. induction l1 as [ | a l1 IH]; intros [ | b l2] H1 H2 Hext.
  - reflexivity.
  - destruct (proj2 (Hext b) (or_introl eq_refl)).
  - destruct (proj1 (Hext a) (or_introl eq_refl)).
  - apply StronglySorted_inv in H1 as [H1 Ha].
    apply StronglySorted_inv in H2 as [H2 Hb].
    rewrite List.Forall_forall in Ha, Hb.
    assert (Hab : a = b).
    { destruct (proj1 (Hext a) (or_introl eq_refl)) as [Heq | Hin]; [ auto | ].
      destruct (proj2 (Hext b) (or_introl eq_refl)) as [Heq | Hin']; [ auto | ].
      pose proof (Ha _ Hin'). pose proof (Hb _ Hin). lia. }
    subst b. f_equal. apply IH; [ assumption | assumption | ].
    intros x. split; intros Hin.
    + destruct (proj1 (Hext x) (or_intror Hin)) as [Heq | Hin']; [ | exact Hin' ].
      pose proof (Ha _ Hin). lia.
    + destruct (proj2 (Hext x) (or_intror Hin)) as [Heq | Hin']; [ | exact Hin' ].
      pose proof (Hb _ Hin). lia.
Qed.

Lemma increasing_app (l1 l2 : list Z) :
  StronglySorted Z.lt l1 -> StronglySorted Z.lt l2 ->
  (forall x y, In x l1 -> In y l2 -> x < y) ->
  StronglySorted Z.lt (l1 ++ l2).
Proof.
  intros H1 H2 Hlt. induction l1 as [ | a l1 IH]; simpl; [ exact H2 | ].
  apply StronglySorted_inv in H1 as [H1 Ha].
  constructor.
  - apply IH; [ exact H1 | ]. intros x y Hx Hy. apply Hlt; simpl; auto.
  - apply Forall_app. split; [ exact Ha | ].
    apply List.Forall_forall. intros y Hy. apply Hlt; simpl; auto.
Qed.

Lemma yielded_member cur end_ d :
  In d (yielded cur end_) <-> cur <= d <= end_ /\ weekday d < 5.
Proof.
  split.
  - pose proof (yielded_bounds cur end_) as Hb.
    rewrite List.Forall_forall in Hb. apply Hb.
  - intros [Hd Hw]. apply yielded_every_weekday; assumption.
Qed.

Lemma yielded_split cur mid end_ :
  cur - 1 <= mid <= end_ ->
  yielded cur end_ = yielded cur mid ++ yielded (mid + 1) end_.
Proof.
  intros Hmid. apply increasing_ext.
  - apply yielded_increasing.
  - apply increasing_app; try apply yielded_increasing.
    intros x y Hx Hy. apply yielded_member in Hx, Hy. lia.
  - intros x. rewrite in_app_iff, !yielded_member. lia.
Qed.

(** Every Monday-to-Friday day between the bounds is yielded, weekends
    never, and no market calendar is asked: the loop yields exactly the
    days [d] with [start <= d <= end_] and [weekday d < 5]. *)
Theorem daterange_yields_every_weekday (start end_ d : Z) :
  start <= d <= end_ -> weekday d < 5 ->
  In d (yielded start end_) /\ In (strftime d) (daterange start end_).
Proof.
  intros Hd Hw.
  assert (Hin : In d (yielded start end_))
    by (apply yielded_every_weekday; assumption).
  split; [ exact Hin | ].
  rewrite daterange_yielded. apply in_map. exact Hin.
Qed.

Lemma daterange_yields_every_weekday_witness :
  20241 <= 20244 <= 20248 /\ weekday 20244 < 5 /\
  In "2025-06-05"%string (daterange 20241 20248).
Proof.
  split; [ lia | ]. split; [ reflexivity | ].
  apply (daterange_yields_every_weekday 20241 20248 20244); [ lia | reflexivity ].
Defined.

(** A range walked in two consecutive pieces gives the same days in the
    same order as the range walked at once. *)
Theorem daterange_in_two_pieces (start mid end_ : Z) :
  start - 1 <= mid <= end_ ->
  daterange start end_ = daterange start mid ++ daterange (mid + 1) end_.
Proof.
  intros Hmid. rewrite !daterange_yielded, <- map_app.
  f_equal. apply yielded_split. exact Hmid.
Qed.

Lemma daterange_in_two_pieces_witness :
  20241 - 1 <= 20245 <= 20248 /\
  daterange 20241 20248 = daterange 20241 20245 ++ daterange 20246 20248.
Proof.
  split; [ lia | ].
  apply (daterange_in_two_pieces 20241 20245 20248). lia.
Defined.

(** A range without a Monday-to-Friday day, such as a weekend, yields
    nothing. *)
Theorem daterange_without_weekday (start end_ : Z) :
  (forall d, start <= d <= end_ -> 5 <= weekday d) ->
  daterange start end_ = [].
Proof.
  intros Hnone. rewrite daterange_yielded.
  destruct (yielded start end_) as [ | d l] eqn:Hy; [ reflexivity | ].
  assert (Hin : In d (yielded start end_)) by (rewrite Hy; left; reflexivity).
  apply yielded_member in Hin as [Hd Hw].
  specialize (Hnone d Hd). lia.
Qed.

Lemma daterange_without_weekday_witness :
  (forall d, 20246 <= d <= 20247 -> 5 <= weekday d) /\
  daterange 20246 20247 = [].
Proof.
  assert (Hnone : forall d, 20246 <= d <= 20247 -> 5 <= weekday d).
  { intros d Hd. assert (Hc : d = 20246 \/ d = 20247) by lia.
    destruct Hc as [-> | ->]; vm_compute; discriminate. }
  split; [ exact Hnone | ].
  apply (daterange_without_weekday 20246 20247 Hnone).
Defined.

End SequencerCoverage.

(** ** The day fetcher: when it raises, when it returns *)

Module FetcherOutcomes.
Import Fetcher FetcherFacts.

Section OneCall.
Variable get : Request -> Reply.
Variables API_KEY ticker day : string.

Abbreviation fetch := (fetch_day get API_KEY ticker day).
Abbreviation reply := (get (request_for API_KEY ticker day)).

Lemma raise_for_status_cases status_code :
  (400 <= status_code < 600 /\
   raise_for_status status_code = Raise (HTTPError status_code)) \/
  successful status_code.
Proof.
  unfold successful, raise_for_status.
  destruct (400 <=? status_code) eqn:Hlo, (status_code <? 600) eqn:Hhi;
    simpl; auto.
  left. split; [ lia | reflexivity ].
Qed.

(** What a returned frame can be. *)
Lemma fetch_day_returns df :
  fetch = Return df ->
  exists status_code js,
    reply = Response status_code (Some js) /\
    successful status_code /\
    if eq_zero (default (JNumber 0) (resultsCount js))
    then df = DataFrame_empty
    else exists r rs,
        results js = Some (r :: rs) /\
        timestamps_in_bounds (r :: rs) = true /\
        df = bars (r :: rs).
Proof.
  intros Hret.
  destruct reply as [detail | status_code [js | ]] eqn:Hget.
  - unfold fetch_day in Hret. rewrite Hget in Hret. discriminate.
  - destruct (raise_for_status_cases status_code) as [[_ Hbad] | Hok].
    { unfold fetch_day in Hret. rewrite Hget, Hbad in Hret. discriminate. }
    exists status_code, js. split; [ reflexivity | ]. split; [ exact Hok | ].
    rewrite (fetch_day_success _ _ _ _ _ _ Hget Hok) in Hret.
    destruct (eq_zero _); [ injection Hret as <-; reflexivity | ].
    destruct (results js) as [[ | r rs] | ]; try discriminate.
    destruct (timestamps_in_bounds (r :: rs)) eqn:Hb; [ | discriminate ].
    injection Hret as <-. eauto.
  - destruct (raise_for_status_cases status_code) as [[_ Hbad] | Hok];
      unfold fetch_day in Hret; rewrite Hget in Hret.
    + rewrite Hbad in Hret. discriminate.
    + rewrite Hok in Hret. discriminate.
Qed.

Lemma bars_columns rs :
  Forall (fun col => length (snd col) = len (bars rs)) (columns (bars rs)).
Proof.
  unfold bars, len, new_york, column. simpl.
  repeat constructor; simpl; rewrite !length_map; reflexivity.
Qed.

(** An error status wins over everything else in the reply: with a
    status from 400 to 599 [fetch_day] raises the HTTP error and the
    body, bars or not, is never read. *)
Theorem fetch_day_error_status (status_code : Z) (json : option Body) :
  reply = Response status_code json ->
  400 <= status_code < 600 ->
  fetch = Raise (HTTPError status_code).
Proof.
  intros Hget Hbad. unfold fetch_day. rewrite Hget.
  unfold raise_for_status.
  replace (400 <=? status_code) with true by lia.
  replace (status_code <? 600) with true by lia.
  reflexivity.
Qed.

(** A count that is not 0 with nothing to back it raises a key error:
    for [results] when the key is absent, for [t] when the list is
    empty (the frame of an empty list has no columns). *)
Theorem fetch_day_count_without_records
    (status_code : Z) (count : JValue) (rs : option (list Agg)) :
  reply = Response status_code
            (Some {| resultsCount := Some count; results := rs |}) ->
  successful status_code ->
  eq_zero count = false ->
  rs = None \/ rs = Some [] ->
  fetch = Raise (KeyError (match rs with
                           | None => "results"
                           | Some _ => "t"
                           end)).
Proof.
  intros Hget Hok Hcount Hrs.
  rewrite (fetch_day_success _ _ _ _ _ _ Hget Hok). simpl. rewrite Hcount.
  destruct Hrs as [-> | ->]; reflexivity.
Qed.


(** A returned frame is empty, in the sense of [df.empty], only when it
    is [pd.DataFrame()]; otherwise it has a row, the five columns, and
    every column is as long as the index. *)
Theorem fetch_day_frame_shape (df : DataFrame) :
  fetch = Return df ->
  (empty df = true <-> df = DataFrame_empty) /\
  (df = DataFrame_empty \/
   ((0 < len df)%nat /\
    map fst (columns df) = ["open"; "high"; "low"; "close"; "volume"]%string)) /\
  Forall (fun col => length (snd col) = len df) (columns df).
Proof.
  intros Hret.
  destruct (fetch_day_returns df Hret) as (status_code & js & _ & _ & Hdf).
  destruct (eq_zero _).
  - subst df. repeat split; auto.
  - destruct Hdf as (r & rs & _ & _ & ->).
    split; [ split; [ discriminate | discriminate ] | ].
    split; [ right; split; [ | reflexivity ] | apply bars_columns ].
    unfold len, bars, new_york. simpl. lia.
Qed.


End OneCall.

Lemma fetch_day_error_status_witness :
  400 <= 429 < 600 /\
  fetch_day (always (Response 429 (Some body_ascending)))
            "KEY" "SPY" "2025-06-02" = Raise (HTTPError 429).
Proof.
  split; [ lia | ].
  apply (fetch_day_error_status
           (always (Response 429 (Some body_ascending)))
           "KEY" "SPY" "2025-06-02" 429 (Some body_ascending) eq_refl).
  lia.
Defined.

Lemma fetch_day_count_without_records_witness :
  fetch_day (always (Response 200
                       (Some {| resultsCount := Some (JNumber 3);
                                results := Some [] |})))
            "KEY" "SPY" "2025-06-02" = Raise (KeyError "t") /\
  fetch_day (always (Response 200
                       (Some {| resultsCount := Some (JNumber 3);
                                results := None |})))
            "KEY" "SPY" "2025-06-02" = Raise (KeyError "results").
Proof.
  split.
  - apply (fetch_day_count_without_records
             (always (Response 200
                        (Some {| resultsCount := Some (JNumber 3);
                                 results := Some [] |})))
             "KEY" "SPY" "2025-06-02" 200 (JNumber 3) (Some [])
             eq_refl eq_refl eq_refl).
    right. reflexivity.
  - apply (fetch_day_count_without_records
             (always (Response 200
                        (Some {| resultsCount := Some (JNumber 3);
                                 results := None |})))
             "KEY" "SPY" "2025-06-02" 200 (JNumber 3) None
             eq_refl eq_refl eq_refl).
    left. reflexivity.
Defined.

Lemma fetch_day_frame_shape_witness :
  fetch_day (always (Response 200 (Some body_ascending)))
            "KEY" "SPY" "2025-06-02"
  = Return (bars [agg_at 1748871000000; agg_at 1748871060000]) /\
  Forall (fun col =>
            length (snd col)
            = len (bars [agg_at 1748871000000; agg_at 1748871060000]))
         (columns (bars [agg_at 1748871000000; agg_at 1748871060000])).
Proof.
  split; [ reflexivity | ].
  apply (fetch_day_frame_shape
           (always (Response 200 (Some body_ascending)))
           "KEY" "SPY" "2025-06-02"
           (bars [agg_at 1748871000000; agg_at 1748871060000]) eq_refl).
Defined.


End FetcherOutcomes.

(** ** Output paths *)

Module PathFacts.
Import Orchestrator Accounting.

Lemma replace_colon_chars (s : string) :
  ~ In ":"%char (chars (replace_colon s)).
Proof.
  induction s as [ | ch s IH]; simpl; [ tauto | ].
  intros [Heq | Hin]; [ | exact (IH Hin) ].
  destruct (Ascii.eqb_spec ch ":") as [-> | Hne]; [ discriminate | ].
  congruence.
Qed.

Lemma replace_colon_fixed (s : string) :
  ~ In ":"%char (chars s) -> replace_colon s = s.
Proof.
  induction s as [ | ch s IH]; simpl; intros Hno; [ reflexivity | ].
  destruct (Ascii.eqb_spec ch ":") as [-> | Hne]; [ tauto | ].
  f_equal. apply IH. tauto.
Qed.

(** The sanitized ticker never holds a colon, has the length of the
    ticker, and sanitizing it again changes nothing; a ticker without a
    colon is its own sanitized form. *)
Theorem replace_colon_sanitizes (tk : string) :
  ~ In ":"%char (chars (replace_colon tk)) /\
  String.length (replace_colon tk) = String.length tk /\
  replace_colon (replace_colon tk) = replace_colon tk /\
  (~ In ":"%char (chars tk) -> replace_colon tk = tk).
Proof.
  split; [ apply replace_colon_chars | ].
  split; [ induction tk as [ | ch tk IH]; simpl; congruence | ].
  split; [ apply replace_colon_fixed, replace_colon_chars
         | apply replace_colon_fixed ].
Qed.

Lemma replace_colon_sanitizes_witness :
  ~ In ":"%char (chars "SPY") /\ replace_colon "SPY" = "SPY"%string.
Proof.
  assert (Hno : ~ In ":"%char (chars "SPY")).
  { simpl. intros [H | [H | [H | []]]]; discriminate H. }
  split; [ exact Hno | ].
  exact (proj2 (proj2 (proj2 (replace_colon_sanitizes "SPY"))) Hno).
Defined.

End PathFacts.

(** ** The orchestrator: steps, whole runs, and reruns *)

Module OrchestratorRuns.
Import Calendar Sequencer SequencerFacts SequencerCoverage.
Import Fetcher Orchestrator Accounting OrchestratorFacts PathFacts.

Section Run.
Variable W : World.
Variable API_KEY : string.
Variable args : Args.

Abbreviation body := (body W API_KEY args).
Abbreviation loop := (loop W API_KEY args).
Abbreviation path day := (csv_path_of (out args) (ticker args) day).
Abbreviation called st day :=
  (snd (call_fetch_day W API_KEY args day (rate_limit st))).
Abbreviation fetched st day :=
  (fetch_day (network W (clock (rate_limit st))) API_KEY (ticker args) day).

(** The four ways through an iteration. *)
Lemma body_cases st day :
  (exists df, files st !! path day = Some df /\
              body st day = print (skip (path day)) st) \/
  (files st !! path day = None /\
   ((exists e, fetched st day = Raise e /\
               body st day = print (warn day e) (called st day)) \/
    (exists df, fetched st day = Return df /\ empty df = true /\
                body st day = count_request (print (info day) (called st day))) \/
    (exists df, fetched st day = Return df /\ empty df = false /\
                body st day =
                count_request
                  (print (ok (path day) (len df))
                         (to_csv (path day) df (called st day)))))).
Proof.
  destruct (files st !! path day) as [df | ] eqn:Hex.
  - left. exists df. split; [ reflexivity | apply (body_skip _ _ _ _ _ _ Hex) ].
  - right. split; [ reflexivity | ].
    destruct (fetched st day) as [e | df] eqn:Hf.
    + left. exists e. split; [ reflexivity | apply (body_raise _ _ _ _ _ _ Hex Hf) ].
    + right. rewrite (body_return _ _ _ _ _ _ Hex Hf). cbv zeta.
      destruct (empty df) eqn:He; [ left | right ]; exists df; auto.
Qed.

(** The rate-limit block adds nothing to the trace, or one sleep. *)
Lemma rate_limit_trace st :
  (trace (rate_limit st) = trace st /\ clock (rate_limit st) = clock st) \/
  (reqs_in_window st = 5 /\
   (0 < 60 - (clock st - window_start st))%Q /\
   trace (rate_limit st)
   = Sleep (60 - (clock st - window_start st) + 0.1)%Q :: trace st /\
   clock (rate_limit st)
   = (clock st + (60 - (clock st - window_start st) + 0.1))%Q).
Proof.
  unfold rate_limit. destruct (reqs_in_window st =? 5) eqn:H5; [ | auto ].
  destruct (Qlt_le_dec _ _) as [Hlt | Hle]; [ right | left; auto ].
  split; [ lia | ]. split; [ exact Hlt | ]. split; reflexivity.
Qed.

Lemma rate_limit_window st :
  reqs_in_window st <> 5 -> rate_limit st = st.
Proof.
  intros Hne. unfold rate_limit.
  destruct (reqs_in_window st =? 5) eqn:H5; [ lia | reflexivity ].
Qed.

Lemma rate_limit_keeps st e :
  In e (trace st) -> In e (trace (rate_limit st)).
Proof.
  destruct (rate_limit_trace st) as [[-> _] | (_ & _ & -> & _)]; simpl; auto.
Qed.

Lemma rate_limit_adds st e :
  In e (trace (rate_limit st)) -> In e (trace st) \/ is_sleep e = true.
Proof.
  destruct (rate_limit_trace st) as [[-> _] | (_ & _ & -> & _)]; simpl; auto.
  intros [<- | Hin]; auto.
Qed.

(** An iteration only adds to the trace. *)
Lemma body_keeps_trace st day e :
  In e (trace st) -> In e (trace (body st day)).
Proof.
  intros Hin. pose proof (rate_limit_keeps st e Hin) as Hrl.
  destruct (body_cases st day)
    as [(df & _ & ->) | (_ & [(x & _ & ->) | [(df & _ & _ & ->) | (df & _ & _ & ->)]])];
    simpl; auto.
Qed.

Lemma loop_keeps_trace days st e :
  In e (trace st) -> In e (trace (loop days st)).
Proof.
  revert st. induction days as [ | day days IH]; intros st Hin; simpl; auto.
  apply IH, body_keeps_trace, Hin.
Qed.

(** *** Days that are fetched and answered *)

(** A day answered with the empty frame: the call and the info line
    enter the trace, no file is written, and the call is counted. *)
Theorem empty_frame_is_logged_and_counted st day df :
  files st !! path day = None ->
  fetched st day = Return df ->
  empty df = true ->
  let st' := body st day in
  trace st' = Print (info day)
                :: Fetch (clock (rate_limit st)) (ticker args) day
                :: trace (rate_limit st) /\
  files st' = files st /\
  reqs_in_window st' = reqs_in_window (rate_limit st) + 1.
Proof.
  intros Hex Hf He. cbv zeta.
  rewrite (body_return _ _ _ _ _ _ Hex Hf). cbv zeta. rewrite He. simpl.
  repeat split. apply files_rate_limit.
Qed.

(** *** Counting the events of a run *)



End Run.


(** *** Files and calls over a whole run *)

Section Files.
Variable W : World.
Variable API_KEY : string.
Variable args : Args.

Abbreviation body := (body W API_KEY args).
Abbreviation loop := (loop W API_KEY args).
Abbreviation path day := (csv_path_of (out args) (ticker args) day).
Abbreviation called st day :=
  (snd (call_fetch_day W API_KEY args day (rate_limit st))).

(** The files are those of [fs0] and those the trace says were written. *)
Abbreviation ledger fs0 st :=
  (forall p df,
      files st !! p = Some df <->
      fs0 !! p = Some df \/ (fs0 !! p = None /\ In (ToCsv p df) (trace st))).

Lemma rate_limit_writes_iff st p df :
  In (ToCsv p df) (trace (rate_limit st)) <-> In (ToCsv p df) (trace st).
Proof.
  split; [ | apply rate_limit_keeps ].
  intros Hin. destruct (rate_limit_adds st _ Hin) as [Hold | Habs];
    [ exact Hold | discriminate Habs ].
Qed.

Lemma body_ledger (fs0 : gmap string DataFrame) st day :
  ledger fs0 st -> ledger fs0 (body st day).
Proof.
  intros Hinv p df.
  destruct (body_cases W API_KEY args st day)
    as [(df0 & _ & ->) | (Hex & [(x & _ & ->) | [(df0 & _ & _ & ->) | (df0 & _ & _ & ->)]])];
    simpl; rewrite ?files_rate_limit.
  - rewrite (Hinv p df). intuition discriminate.
  - rewrite (Hinv p df), <- (rate_limit_writes_iff st p df).
    intuition discriminate.
  - rewrite (Hinv p df), <- (rate_limit_writes_iff st p df).
    intuition discriminate.
  - assert (Hfs0 : fs0 !! path day = None).
    { destruct (fs0 !! path day) as [x | ] eqn:Hx; [ | reflexivity ].
      pose proof (proj2 (Hinv (path day) x) (or_introl Hx)). congruence. }
    assert (Hnone : forall x, ~ In (ToCsv (path day) x) (trace st)).
    { intros x Hin.
      pose proof (proj2 (Hinv (path day) x) (or_intror (conj Hfs0 Hin))).
      congruence. }
    destruct (decide (path day = p)) as [<- | Hne].
    + rewrite lookup_insert_eq. split.
      * intros [= ->]. right. split; [ exact Hfs0 | auto ].
      * intros [Hold | [_ [Habs | [Heq | [Habs | Hin]]]]];
          try discriminate; try congruence.
        apply (proj1 (rate_limit_writes_iff st _ _)) in Hin.
        destruct (Hnone _ Hin).
    + rewrite lookup_insert_ne by exact Hne.
      rewrite (Hinv p df), <- (rate_limit_writes_iff st p df).
      split; (intros [Hold | [Hno Hin]]; [ left; exact Hold | right ]);
        (split; [ exact Hno | ]).
      * auto.
      * destruct Hin as [Habs | [Heq | [Habs | Hin]]];
          try discriminate; [ congruence | exact Hin ].
Qed.

Lemma loop_ledger (fs0 : gmap string DataFrame) days st :
  ledger fs0 st -> ledger fs0 (loop days st).
Proof.
  revert st. induction days as [ | day days IH]; intros st Hinv; simpl.
  - exact Hinv.
  - apply IH, body_ledger, Hinv.
Qed.

(** A call of [fetch_day] in the trace comes from the iteration of its
    day, for the run's ticker, with the day's file absent. *)
Lemma body_fetch_origin st day at_ tk d :
  In (Fetch at_ tk d) (trace (body st day)) ->
  In (Fetch at_ tk d) (trace st) \/
  (tk = ticker args /\ d = day /\ files st !! path day = None).
Proof.
  intros Hin.
  destruct (body_cases W API_KEY args st day)
    as [(df0 & _ & Hb) | (Hex & [(x & _ & Hb) | [(df0 & _ & _ & Hb) | (df0 & _ & _ & Hb)]])];
    rewrite Hb in Hin; simpl in Hin.
  - destruct Hin as [Habs | Hin]; [ discriminate | auto ].
  - destruct Hin as [Habs | [Heq | Hin]]; [ discriminate | | ].
    + injection Heq as _ <- <-. auto.
    + left. apply rate_limit_fetches, Hin.
  - destruct Hin as [Habs | [Heq | Hin]]; [ discriminate | | ].
    + injection Heq as _ <- <-. auto.
    + left. apply rate_limit_fetches, Hin.
  - destruct Hin as [Habs | [Habs | [Heq | Hin]]]; try discriminate.
    + injection Heq as _ <- <-. auto.
    + left. apply rate_limit_fetches, Hin.
Qed.

Lemma absent_before st st' (p : string) :
  files st ⊆ files st' -> files st' !! p = None -> files st !! p = None.
Proof.
  intros Hsub Hnone. destruct (files st !! p) as [x | ] eqn:Hx; [ | reflexivity ].
  pose proof (lookup_weaken _ _ _ _ Hx Hsub). congruence.
Qed.

Lemma loop_fetch_origin days st at_ tk d :
  In (Fetch at_ tk d) (trace (loop days st)) ->
  In (Fetch at_ tk d) (trace st) \/
  (tk = ticker args /\ In d days /\ files st !! path d = None).
Proof.
  revert st. induction days as [ | day days IH]; intros st Hin; simpl in *.
  - auto.
  - destruct (IH _ Hin) as [Hbody | (Htk & Hd & Hnone)].
    + destruct (body_fetch_origin _ _ _ _ _ Hbody) as [Hold | (Htk & -> & Hnone)];
        auto.
    + right. split; [ exact Htk | ]. split; [ auto | ].
      eapply absent_before; [ apply body_keeps_files | exact Hnone ].
Qed.

(** A call of [to_csv] in the trace comes from the iteration of its
    day, whose file was absent and for which [fetch_day] returned the
    frame, with rows. *)
Lemma body_to_csv_origin st day p df :
  In (ToCsv p df) (trace (body st day)) ->
  In (ToCsv p df) (trace st) \/
  (p = path day /\ files st !! path day = None /\
   fetch_day (network W (clock (rate_limit st))) API_KEY (ticker args) day
   = Return df /\
   empty df = false).
Proof.
  intros Hin.
  destruct (body_cases W API_KEY args st day)
    as [(df0 & _ & Hb) | (Hex & [(x & _ & Hb) | [(df0 & _ & _ & Hb) | (df0 & Hf & He & Hb)]])];
    rewrite Hb in Hin; simpl in Hin.
  - destruct Hin as [Habs | Hin]; [ discriminate | auto ].
  - destruct Hin as [Habs | [Habs | Hin]]; try discriminate.
    left. apply (proj1 (rate_limit_writes_iff st p df)), Hin.
  - destruct Hin as [Habs | [Habs | Hin]]; try discriminate.
    left. apply (proj1 (rate_limit_writes_iff st p df)), Hin.
  - destruct Hin as [Habs | [Heq | [Habs | Hin]]]; try discriminate.
    + injection Heq as <- <-. right. auto.
    + left. apply (proj1 (rate_limit_writes_iff st p df)), Hin.
Qed.

Lemma loop_to_csv_origin days st p df :
  In (ToCsv p df) (trace (loop days st)) ->
  In (ToCsv p df) (trace st) \/
  exists day at_,
    In day days /\ p = path day /\ files st !! p = None /\
    fetch_day (network W at_) API_KEY (ticker args) day = Return df /\
    empty df = false.
Proof.
  revert st. induction days as [ | day days IH]; intros st Hin; simpl in *.
  - auto.
  - destruct (IH _ Hin) as [Hbody | (d & at_ & Hd & Hp & Hnone & Hf & He)].
    + destruct (body_to_csv_origin _ _ _ _ Hbody)
        as [Hold | (Hp & Hnone & Hf & He)]; [ auto | ].
      right. exists day, (clock (rate_limit st)). subst p. auto 6.
    + right. exists d, at_. split; [ auto | ]. split; [ exact Hp | ].
      split; [ | auto ].
      eapply absent_before; [ apply body_keeps_files | exact Hnone ].
Qed.

(** An iteration that calls [to_csv] for no frame leaves the files as
    they were. *)
Lemma body_without_to_csv st day :
  (forall p df, ~ In (ToCsv p df) (trace (body st day))) ->
  files (body st day) = files st.
Proof.
  intros Hno.
  destruct (body_cases W API_KEY args st day)
    as [(df0 & _ & Hb) | (Hex & [(x & _ & Hb) | [(df0 & _ & _ & Hb) | (df0 & _ & _ & Hb)]])].
  - rewrite Hb. reflexivity.
  - rewrite Hb. simpl. apply files_rate_limit.
  - rewrite Hb. simpl. apply files_rate_limit.
  - exfalso. apply (Hno (path day) df0). rewrite Hb. simpl. auto.
Qed.

(** The absence of the file is the only memory of a run.  As long as
    no day of the range is answered with bars, so that [to_csv] is
    never called, a day of the range whose file is not there, whether
    never tried, answered with the empty frame or failed, is
    fetched. *)
Theorem unwritten_run_fetches_absent_days days st d :
  In d days ->
  files st !! path d = None ->
  (forall p df, ~ In (ToCsv p df) (trace (loop days st))) ->
  exists at_, In (Fetch at_ (ticker args) d) (trace (loop days st)).
Proof.
  revert st. induction days as [ | day days IH]; intros st Hin Hnone Hno;
    [ destruct Hin | ].
  simpl in *. destruct (decide (day = d)) as [-> | Hne].
  - exists (clock (rate_limit st)).
    apply loop_keeps_trace, body_fetch_when_new, Hnone.
  - destruct Hin as [Heq | Hin]; [ congruence | ].
    apply IH; [ exact Hin | | exact Hno ].
    rewrite body_without_to_csv; [ exact Hnone | ].
    intros p df Hw. apply (Hno p df), loop_keeps_trace, Hw.
Qed.

(** Over a directory that already holds the file of every day, the run
    prints one skip line per day, in order, and does nothing else. *)
Theorem rerun_over_complete_directory days st :
  Forall (fun d => is_Some (files st !! path d)) days ->
  trace (loop days st)
  = rev (map (fun d => Print (skip (path d))) days) ++ trace st /\
  files (loop days st) = files st /\
  reqs_in_window (loop days st) = reqs_in_window st /\
  window_start (loop days st) = window_start st /\
  clock (loop days st) = clock st.
Proof.
  revert st. induction days as [ | day days IH]; intros st Hall; simpl.
  - repeat split.
  - apply List.Forall_cons_iff in Hall as [[df Hex] Hall].
    rewrite (body_skip _ _ _ _ _ _ Hex).
    destruct (IH (print (skip (path day)) st) Hall) as (Ht & Hf & Hr & Hw & Hc).
    rewrite Ht, Hf, Hr, Hw, Hc. simpl. rewrite <- app_assoc. repeat split.
Qed.

End Files.

Lemma listed_day_is_trading_day args d :
  In d (daterange (start args) (end_ args)) ->
  exists t, d = strftime t /\ start args <= t <= end_ args /\ weekday t < 5.
Proof.
  intros Hd.
  rewrite daterange_yielded in Hd. apply in_map_iff in Hd as (t & <- & Ht).
  apply yielded_member in Ht. exists t. auto.
Qed.

(** A run calls [to_csv] only with a frame that [fetch_day] returned
    with rows, for the [%Y-%m-%d] string of a Monday-to-Friday day
    between [start] and [end_], and only on that day's path, where no
    file was at the start. *)
Theorem run_writes_only_fetched_bars W key args fs now p df :
  In (ToCsv p df) (trace (main W key args fs now)) ->
  fs !! p = None /\
  empty df = false /\
  exists t at_,
    p = csv_path_of (out args) (ticker args) (strftime t) /\
    start args <= t <= end_ args /\ weekday t < 5 /\
    fetch_day (network W at_) key (ticker args) (strftime t) = Return df.
Proof.
  unfold main. intros Hin.
  apply loop_to_csv_origin in Hin
    as [[] | (d & at_ & Hd & Hp & Hnone & Hf & He)].
  split; [ exact Hnone | ]. split; [ exact He | ].
  apply listed_day_is_trading_day in Hd as (t & -> & Hrange & Hweek).
  exists t, at_. auto.
Qed.

(** A file that is in the directory after a run and was not there
    before is the file of a Monday-to-Friday day between [start] and
    [end_], a day for which [fetch_day] returned a frame with rows. *)
Theorem run_creates_only_trading_day_files W key args fs now p :
  fs !! p = None ->
  is_Some (files (main W key args fs now) !! p) ->
  exists t at_ df,
    p = csv_path_of (out args) (ticker args) (strftime t) /\
    start args <= t <= end_ args /\ weekday t < 5 /\
    fetch_day (network W at_) key (ticker args) (strftime t) = Return df /\
    empty df = false.
Proof.
  unfold main. intros Hnone [df Hdf].
  assert (Hinit : forall p0 df0,
             files (init fs now) !! p0 = Some df0 <->
             fs !! p0 = Some df0 \/
             (fs !! p0 = None /\ In (ToCsv p0 df0) (trace (init fs now)))).
  { intros p0 df0. simpl. intuition. }
  apply (proj1 (loop_ledger W key args fs _ _ Hinit p df)) in Hdf.
  destruct Hdf as [Hold | [_ Hin]]; [ congruence | ].
  apply loop_to_csv_origin in Hin
    as [[] | (d & at_ & Hd & Hp & _ & Hf & He)].
  apply listed_day_is_trading_day in Hd as (t & -> & Hrange & Hweek).
  exists t, at_, df. auto 6.
Qed.

(** A run calls [fetch_day] only for its own ticker, only for the
    [%Y-%m-%d] string of a Monday-to-Friday day between [start] and
    [end_], and only when the day's file was not there at the start. *)
Theorem run_fetches_only_trading_days W key args fs now at_ tk d :
  In (Fetch at_ tk d) (trace (main W key args fs now)) ->
  tk = ticker args /\
  fs !! csv_path_of (out args) (ticker args) d = None /\
  exists t, d = strftime t /\ start args <= t <= end_ args /\ weekday t < 5.
Proof.
  unfold main. intros Hin.
  apply loop_fetch_origin in Hin as [[] | (Htk & Hd & Hnone)].
  split; [ exact Htk | ]. split; [ exact Hnone | ].
  rewrite daterange_yielded in Hd. apply in_map_iff in Hd as (t & <- & Ht).
  apply yielded_member in Ht. exists t. auto.
Qed.

(** *** The counter and the clock over a whole run *)

Section Pace.
Variable W : World.
Variable API_KEY : string.
Variable args : Args.

Abbreviation body := (body W API_KEY args).
Abbreviation loop := (loop W API_KEY args).

(** The window never starts in the future and every sleep so far was
    longer than a tenth of a second and at most 60.1 seconds. *)
Abbreviation paced st :=
  (Qle (window_start st) (clock st) /\
   forall secs, In (Sleep secs) (trace st) -> (0.1 < secs)%Q /\ (secs <= 60.1)%Q).

Lemma rate_limit_paced st : paced st -> paced (rate_limit st).
Proof.
  intros [Hstart Hsleeps]. unfold rate_limit.
  destruct (reqs_in_window st =? 5); [ | split; assumption ].
  destruct (Qlt_le_dec _ _) as [Hlt | Hle]; cbn [new_window sleep window_start clock trace].
  - split; [ lra | ].
    intros secs [Heq | Hin]; [ | auto ].
    injection Heq as <-. split; lra.
  - split; [ lra | exact Hsleeps ].
Qed.

Lemma body_paced st day :
  (forall now req, (0 <= latency W now req)%Q) -> paced st -> paced (body st day).
Proof.
  intros Hlat Hst.
  destruct (rate_limit_paced st Hst) as [Hstart Hsleeps].
  pose proof (Hlat (clock (rate_limit st))
                (request_for API_KEY (ticker args) day)) as Hpos.
  destruct (body_cases W API_KEY args st day)
    as [(df0 & _ & ->) | (Hex & [(x & _ & ->) | [(df0 & _ & _ & ->) | (df0 & _ & _ & ->)]])];
    cbn [print count_request to_csv call_fetch_day snd window_start clock trace].
  - destruct Hst as [Hs Hall]. split; [ exact Hs | ].
    intros secs [Habs | Hin]; [ discriminate | auto ].
  - split; [ lra | ].
    intros secs [Habs | [Habs | Hin]]; try discriminate; auto.
  - split; [ lra | ].
    intros secs [Habs | [Habs | Hin]]; try discriminate; auto.
  - split; [ lra | ].
    intros secs [Habs | [Habs | [Habs | Hin]]]; try discriminate; auto.
Qed.

Lemma loop_paced days st :
  (forall now req, (0 <= latency W now req)%Q) -> paced st -> paced (loop days st).
Proof.
  intros Hlat. revert st. induction days as [ | day days IH]; intros st Hst; simpl.
  - exact Hst.
  - apply IH, body_paced; assumption.
Qed.

Lemma loop_count days st :
  0 <= reqs_in_window st <= 5 -> 0 <= reqs_in_window (loop days st) <= 5.
Proof.
  revert st. induction days as [ | day days IH]; intros st Hst; simpl.
  - exact Hst.
  - apply IH, body_count, Hst.
Qed.

(** With the counter below five the iteration does not sleep, and the
    counter goes up by one at most. *)
Lemma body_below_five st day :
  0 <= reqs_in_window st < 5 ->
  count is_sleep (trace (body st day)) = count is_sleep (trace st) /\
  0 <= reqs_in_window (body st day) <= reqs_in_window st + 1.
Proof.
  intros Hlow.
  assert (Hrl : rate_limit st = st) by (apply rate_limit_window; lia).
  unfold count.
  destruct (body_cases W API_KEY args st day)
    as [(df0 & _ & ->) | (Hex & [(x & _ & ->) | [(df0 & _ & _ & ->) | (df0 & _ & _ & ->)]])];
    rewrite ?Hrl; simpl; split; lia.
Qed.

Lemma loop_below_five days st :
  0 <= reqs_in_window st ->
  reqs_in_window st + Z.of_nat (length days) <= 5 ->
  count is_sleep (trace (loop days st)) = count is_sleep (trace st).
Proof.
  revert st. induction days as [ | day days IH]; intros st Hlo Hhi; simpl in *.
  - reflexivity.
  - destruct (body_below_five st day ltac:(lia)) as [Hs Hr].
    rewrite IH; [ exact Hs | lia | lia ].
Qed.

(** When five calls are counted the block opens a new window: if fewer
    than 60 seconds have passed since the window started it sleeps
    once, to 60.1 seconds after that start; otherwise it goes on at
    once.  The counter restarts at 0 either way. *)
Theorem rate_limit_opens_window st :
  reqs_in_window st = 5 ->
  reqs_in_window (rate_limit st) = 0 /\
  window_start (rate_limit st) = clock (rate_limit st) /\
  ((clock st < window_start st + 60)%Q ->
   (clock (rate_limit st) == window_start st + 60.1)%Q /\
   exists secs, trace (rate_limit st) = Sleep secs :: trace st /\
                (secs == window_start st + 60.1 - clock st)%Q) /\
  ((window_start st + 60 <= clock st)%Q ->
   clock (rate_limit st) = clock st /\ trace (rate_limit st) = trace st).
Proof.
  intros H5. unfold rate_limit. rewrite H5.
  change (5 =? 5) with true. cbv iota.
  destruct (Qlt_le_dec _ _) as [Hlt | Hle];
    cbn [new_window sleep reqs_in_window window_start clock trace].
  - split; [ reflexivity | ]. split; [ reflexivity | ]. split.
    + intros _. split; [ lra | ].
      eexists. split; [ reflexivity | lra ].
    + intros Hpast. lra.
  - split; [ reflexivity | ]. split; [ reflexivity | ]. split.
    + intros Hearly. lra.
    + intros _. split; reflexivity.
Qed.

End Pace.

(** The counter is between 0 and 5 after any number of iterations,
    whatever the provider answers. *)
Theorem counter_stays_within_five W key args fs now days :
  0 <= reqs_in_window (loop W key args days (init fs now)) <= 5.
Proof. apply loop_count. simpl. lia. Qed.

(** If calls never take negative time, every sleep of a run lasts more
    than a tenth of a second and at most 60.1 seconds. *)
Theorem sleeps_are_bounded W key args fs now secs :
  (forall t req, (0 <= latency W t req)%Q) ->
  In (Sleep secs) (trace (main W key args fs now)) ->
  (0.1 < secs)%Q /\ (secs <= 60.1)%Q.
Proof.
  intros Hlat Hin. unfold main in Hin.
  refine (proj2 (loop_paced W key args _ (init fs now) Hlat _) secs Hin).
  simpl. split; [ lra | intros s [] ].
Qed.

(** A range of at most five trading days is fetched without a sleep. *)
Theorem short_runs_never_sleep W key args fs now :
  (length (daterange (start args) (end_ args)) <= 5)%nat ->
  count is_sleep (trace (main W key args fs now)) = 0%nat.
Proof.
  intros Hshort. unfold main.
  rewrite loop_below_five; simpl; [ reflexivity | lia | lia ].
Qed.

(** *** Sample runs *)

Lemma empty_frame_is_logged_and_counted_witness :
  trace (body closed "KEY" six_days (init ∅ 0%Q) "2025-06-02")
  = [Print (info "2025-06-02"); Fetch 0%Q "SPY" "2025-06-02"] /\
  files (body closed "KEY" six_days (init ∅ 0%Q) "2025-06-02") = ∅ /\
  reqs_in_window (body closed "KEY" six_days (init ∅ 0%Q) "2025-06-02") = 1.
Proof.
  assert (Hnew : files (init ∅ 0%Q)
            !! csv_path_of (out six_days) (ticker six_days) "2025-06-02"
            = None) by reflexivity.
  assert (Hret : fetch_day (network closed (clock (rate_limit (init ∅ 0%Q))))
            "KEY" (ticker six_days) "2025-06-02" = Return DataFrame_empty)
    by reflexivity.
  exact (empty_frame_is_logged_and_counted
           closed "KEY"%string six_days (init ∅ 0%Q) "2025-06-02"%string
           DataFrame_empty Hnew Hret eq_refl).
Defined.

Lemma run_writes_only_fetched_bars_witness :
  In (ToCsv "data/I_SPX_2025-06-02.csv"
        (bars [agg_at 1748871000000; agg_at 1748871060000]))
     (trace (main serving "KEY" spx_colon ∅ 0%Q)) /\
  empty (bars [agg_at 1748871000000; agg_at 1748871060000]) = false /\
  exists t at_,
    "data/I_SPX_2025-06-02.csv"%string
    = csv_path_of (out spx_colon) (ticker spx_colon) (strftime t) /\
    20241 <= t <= 20241 /\ weekday t < 5 /\
    fetch_day (network serving at_) "KEY" (ticker spx_colon) (strftime t)
    = Return (bars [agg_at 1748871000000; agg_at 1748871060000]).
Proof.
  assert (Hin : In (ToCsv "data/I_SPX_2025-06-02.csv"
                      (bars [agg_at 1748871000000; agg_at 1748871060000]))
                   (trace (main serving "KEY" spx_colon ∅ 0%Q))).
  { vm_compute. right. left. reflexivity. }
  split; [ exact Hin | ].
  destruct (run_writes_only_fetched_bars serving "KEY"%string spx_colon
              (∅ : gmap string DataFrame) 0%Q
              "data/I_SPX_2025-06-02.csv"%string
              (bars [agg_at 1748871000000; agg_at 1748871060000]) Hin)
    as (_ & He & Ht).
  split; [ exact He | exact Ht ].
Defined.

Lemma run_creates_only_trading_day_files_witness :
  is_Some (files (main serving "KEY" spx_colon ∅ 0%Q)
             !! "data/I_SPX_2025-06-02.csv"%string) /\
  exists t at_ df,
    "data/I_SPX_2025-06-02.csv"%string
    = csv_path_of (out spx_colon) (ticker spx_colon) (strftime t) /\
    20241 <= t <= 20241 /\ weekday t < 5 /\
    fetch_day (network serving at_) "KEY" (ticker spx_colon) (strftime t)
    = Return df /\
    empty df = false.
Proof.
  assert (Hnone : (∅ : gmap string DataFrame)
                    !! "data/I_SPX_2025-06-02.csv"%string = None)
    by reflexivity.
  assert (Hsome : is_Some (files (main serving "KEY" spx_colon ∅ 0%Q)
                             !! "data/I_SPX_2025-06-02.csv"%string)).
  { exists (bars [agg_at 1748871000000; agg_at 1748871060000]).
    vm_compute. reflexivity. }
  split; [ exact Hsome | ].
  exact (run_creates_only_trading_day_files serving "KEY"%string spx_colon
           (∅ : gmap string DataFrame) 0%Q
           "data/I_SPX_2025-06-02.csv"%string Hnone Hsome).
Defined.

Lemma unwritten_run_fetches_absent_days_witness :
  exists at_,
    In (Fetch at_ "SPY" "2025-06-03")
       (trace (loop closed "KEY" six_days ["2025-06-02"; "2025-06-03"]%string
                 (init one_file 0%Q))).
Proof.
  apply (unwritten_run_fetches_absent_days closed "KEY"%string six_days
           ["2025-06-02"; "2025-06-03"]%string (init one_file 0%Q)
           "2025-06-03"%string).
  - right. left. reflexivity.
  - reflexivity.
  - intros p df Hin. vm_compute in Hin.
    destruct Hin as [Habs | [Habs | [Habs | []]]]; discriminate Habs.
Defined.

Lemma rerun_over_complete_directory_witness :
  trace (loop refusing "KEY" six_days ["2025-06-02"]%string (init one_file 0%Q))
  = [Print (skip "data/SPY_2025-06-02.csv")] /\
  files (loop refusing "KEY" six_days ["2025-06-02"]%string (init one_file 0%Q))
  = one_file.
Proof.
  assert (Hall : Forall (fun d => is_Some (files (init one_file 0%Q)
                                   !! csv_path_of (out six_days) (ticker six_days) d))
                        ["2025-06-02"%string]).
  { constructor; [ | constructor ].
    exists (bars [agg_at 1748871000000; agg_at 1748871060000]). reflexivity. }
  destruct (rerun_over_complete_directory refusing "KEY"%string six_days
              ["2025-06-02"%string] (init one_file 0%Q) Hall)
    as (Htrace & Hfiles & _).
  split; [ exact Htrace | exact Hfiles ].
Defined.

Lemma run_fetches_only_trading_days_witness :
  In (Fetch 0%Q "I:SPX" "2025-06-02")
     (trace (main refusing "KEY" spx_colon ∅ 0%Q)) /\
  exists t, "2025-06-02"%string = strftime t /\
            20241 <= t <= 20241 /\ weekday t < 5.
Proof.
  assert (Hin : In (Fetch 0%Q "I:SPX" "2025-06-02")
                   (trace (main refusing "KEY" spx_colon ∅ 0%Q))).
  { vm_compute. right. left. reflexivity. }
  split; [ exact Hin | ].
  destruct (run_fetches_only_trading_days refusing "KEY"%string spx_colon
              (∅ : gmap string DataFrame) 0%Q 0%Q "I:SPX"%string
              "2025-06-02"%string Hin)
    as (_ & _ & Ht).
  exact Ht.
Defined.

Lemma sleeps_are_bounded_witness :
  In (Sleep 55.1%Q) (trace (main serving "KEY" six_days ∅ 0%Q)) /\
  (0.1 < 55.1)%Q /\ (55.1 <= 60.1)%Q.
Proof.
  assert (Hin : In (Sleep 55.1%Q) (trace (main serving "KEY" six_days ∅ 0%Q))).
  { vm_compute. do 3 right. left. reflexivity. }
  split; [ exact Hin | ].
  apply (sleeps_are_bounded serving "KEY"%string six_days
           (∅ : gmap string DataFrame) 0%Q 55.1%Q);
    [ | exact Hin ].
  intros t req. discriminate.
Defined.

Lemma short_runs_never_sleep_witness :
  (length (daterange (start spx_colon) (end_ spx_colon)) <= 5)%nat /\
  count is_sleep (trace (main serving "KEY" spx_colon ∅ 0%Q)) = 0%nat.
Proof.
  assert (Hshort : (length (daterange (start spx_colon) (end_ spx_colon)) <= 5)%nat).
  { vm_compute. lia. }
  split; [ exact Hshort | ].
  apply (short_runs_never_sleep serving "KEY"%string spx_colon
           (∅ : gmap string DataFrame) 0%Q Hshort).
Defined.

Lemma rate_limit_opens_window_witness :
  reqs_in_window five_counted = 5 /\
  reqs_in_window (rate_limit five_counted) = 0 /\
  (clock (rate_limit five_counted) == 60.1)%Q.
Proof.
  destruct (rate_limit_opens_window five_counted eq_refl)
    as (Hzero & _ & Hsleep & _).
  split; [ reflexivity | ]. split; [ exact Hzero | ].
  destruct Hsleep as [Hclock _]; [ reflexivity | ].
  rewrite Hclock. reflexivity.
Defined.

End OrchestratorRuns.

(** ** The credential loader *)

Module CredentialFacts.
Import Credentials.

Lemma lstrip_blank s : blank s = true -> lstrip s = EmptyString.
Proof.
  induction s as [ | ch s IH]; simpl; [ reflexivity | ].
  intros [Hch Hs]%andb_prop. rewrite Hch. apply IH, Hs.
Qed.

Lemma lstrip_blank_app pre s :
  blank pre = true -> lstrip (pre ++ s) = lstrip s.
Proof.
  induction pre as [ | ch pre IH]; simpl; [ reflexivity | ].
  intros [Hch Hpre]%andb_prop. rewrite Hch. apply IH, Hpre.
Qed.

Lemma rstrip_blank s : blank s = true -> rstrip s = EmptyString.
Proof.
  induction s as [ | ch s IH]; simpl; [ reflexivity | ].
  intros [Hch Hs]%andb_prop. rewrite (IH Hs), Hch. reflexivity.
Qed.

Lemma rstrip_app_blank s post :
  blank post = true -> rstrip (s ++ post) = rstrip s.
Proof.
  intros Hpost. induction s as [ | ch s IH]; simpl.
  - apply rstrip_blank, Hpost.
  - rewrite IH. reflexivity.
Qed.

Lemma rstrip_spaceless s : spaceless s = true -> rstrip s = s.
Proof.
  induction s as [ | ch s IH]; simpl; [ reflexivity | ].
  intros [Hch Hs]%andb_prop. rewrite (IH Hs).
  apply negb_true_iff in Hch. rewrite Hch.
  destruct s; reflexivity.
Qed.

Lemma lstrip_first s ch :
  first_char (lstrip s) = Some ch -> isspace ch = false.
Proof.
  induction s as [ | c s IH]; simpl; [ discriminate | ].
  destruct (isspace c) eqn:Hc; [ exact IH | ].
  simpl. intros [= <-]. exact Hc.
Qed.

Lemma rstrip_first s ch :
  first_char (rstrip s) = Some ch -> first_char s = Some ch.
Proof.
  destruct s as [ | c s]; simpl; [ discriminate | ].
  destruct (rstrip s); [ destruct (isspace c) | ]; simpl; auto; discriminate.
Qed.

Lemma rstrip_last s ch :
  last_char (rstrip s) = Some ch -> isspace ch = false.
Proof.
  induction s as [ | c s IH]; simpl; [ discriminate | ].
  destruct (rstrip s) as [ | c' kept] eqn:Hkept.
  - destruct (isspace c) eqn:Hc; simpl; [ discriminate | ].
    intros [= <-]. exact Hc.
  - exact IH.
Qed.

Lemma lstrip_fixed s :
  (forall ch, first_char s = Some ch -> isspace ch = false) -> lstrip s = s.
Proof.
  destruct s as [ | c s]; simpl; [ reflexivity | ].
  intros Hfirst. rewrite (Hfirst c eq_refl). reflexivity.
Qed.

Lemma rstrip_idempotent s : rstrip (rstrip s) = rstrip s.
Proof.
  induction s as [ | c s IH]; simpl; [ reflexivity | ].
  destruct (rstrip s) as [ | c' kept] eqn:Hkept.
  - destruct (isspace c) eqn:Hc; simpl; [ reflexivity | ].
    rewrite Hc. reflexivity.
  - change (rstrip (String c (String c' kept)))
      with (match rstrip (String c' kept) with
            | EmptyString =>
                if isspace c then EmptyString else String c EmptyString
            | kept' => String c kept'
            end).
    rewrite IH. reflexivity.
Qed.

Lemma strip_idempotent s : strip (strip s) = strip s.
Proof.
  unfold strip. rewrite (lstrip_fixed (rstrip (lstrip s))).
  - apply rstrip_idempotent.
  - intros ch Hch. apply rstrip_first in Hch. apply (lstrip_first _ _ Hch).
Qed.

(** A key file that holds the key with blank text around it, such as
    a final newline, loads as the bare key. *)
Theorem load_API_KEY_strips_the_key
    (open_ : string -> option string) (before key after : string) :
  open_ API_KEY_PATH = Some (before ++ key ++ after)%string ->
  blank before = true -> blank after = true -> spaceless key = true ->
  load_API_KEY open_ = Some key.
Proof.
  intros Hopen Hbefore Hafter Hkey. unfold load_API_KEY. rewrite Hopen.
  f_equal. unfold strip. rewrite (lstrip_blank_app _ _ Hbefore).
  destruct key as [ | ch key].
  - change (EmptyString ++ after)%string with after.
    rewrite (lstrip_blank _ Hafter). reflexivity.
  - simpl in Hkey. apply andb_prop in Hkey as [Hch Hrest].
    apply negb_true_iff in Hch.
    change (lstrip (String ch key ++ after))
      with (if isspace ch then lstrip (key ++ after)
            else String ch (key ++ after)%string).
    rewrite Hch.
    change (String ch (key ++ after)) with (String ch key ++ after)%string.
    rewrite (rstrip_app_blank _ _ Hafter). apply rstrip_spaceless.
    simpl. rewrite Hch, Hrest. reflexivity.
Qed.

Lemma load_API_KEY_strips_the_key_witness :
  load_API_KEY (fun _ => Some (" abc123" ++ String "010" EmptyString)%string)
  = Some "abc123"%string.
Proof.
  apply (load_API_KEY_strips_the_key
           (fun _ => Some (" abc123" ++ String "010" EmptyString)%string)
           " " "abc123" (String "010" EmptyString));
    reflexivity.
Defined.

(** Whatever the key file holds, the loaded key neither starts nor ends
    with whitespace, and stripping it again changes nothing; when the
    file cannot be read there is no key. *)
Theorem load_API_KEY_has_clean_edges
    (open_ : string -> option string) (key : string) :
  load_API_KEY open_ = Some key ->
  (forall ch, first_char key = Some ch -> isspace ch = false) /\
  (forall ch, last_char key = Some ch -> isspace ch = false) /\
  strip key = key /\
  exists text, open_ API_KEY_PATH = Some text.
Proof.
  unfold load_API_KEY.
  destruct (open_ API_KEY_PATH) as [text | ]; [ | discriminate ].
  intros [= <-]. split; [ | split; [ | split ] ].
  - intros ch Hch. unfold strip in Hch.
    apply rstrip_first in Hch. apply (lstrip_first _ _ Hch).
  - intros ch Hch. apply (rstrip_last _ _ Hch).
  - apply strip_idempotent.
  - eauto.
Qed.

Lemma load_API_KEY_has_clean_edges_witness :
  load_API_KEY (fun _ => Some "  k e y  "%string) = Some "k e y"%string /\
  strip "k e y" = "k e y"%string.
Proof.
  split; [ reflexivity | ].
  apply (load_API_KEY_has_clean_edges
           (fun _ => Some "  k e y  "%string) "k e y" eq_refl).
Defined.

End CredentialFacts.
